(** * sltpwmt: brightness and PulseAudio volume/mute control

    A shallow embedding of [sltpwmt.c] and the properties of its
    specification.  The brightness path is embedded over a small model of
    the two sysfs files; the audio path is embedded as the callbacks the
    program registers with libpulse, run over the program's globals, the
    main loop's quit flag and the list of requests sent on the context. *)

From Stdlib Require Import ZArith Ascii String Lia.
From stdpp Require Import gmap strings list.

Open Scope Z_scope.

(** ** C integers *)

Definition INT_MAX : Z := 2147483647.
Definition INT_MIN : Z := -2147483648.

(** Two's complement reduction of a mathematical integer to [int].  Signed
    overflow is undefined in ISO C; the model fixes it to the wrap-around
    that the target machines perform. *)
Definition wrap_int (z : Z) : Z := (z + 2 ^ 31) mod 2 ^ 32 - 2 ^ 31.

(** Conversion of a (negative) [ssize_t] to [size_t]. *)
Definition to_size_t (z : Z) : Z := z mod 2 ^ 64.

(** ** Outcomes and the state monad of the embedding *)

Inductive fault : Type :=
  | OutOfBounds (idx len : Z)   (* an access outside the array: undefined behaviour *)
  | AssertFailed                (* assert(..) on a false condition: abort() *)
  | Blocked                     (* the main loop has nothing left to dispatch and was
                                   never asked to quit: it sleeps until a signal *)
  | OutOfFuel.                  (* the iteration bound of the model was reached *)

Inductive outcome (A : Type) : Type :=
  | Ok (a : A)
  | Fault (f : fault).
Arguments Ok {A} a.
Arguments Fault {A} f.

Definition M (S A : Type) : Type := S -> outcome (A * S).

Definition ret {S A : Type} (a : A) : M S A := fun s => Ok (a, s).

Definition bind {S A B : Type} (m : M S A) (k : A -> M S B) : M S B :=
  fun s => match m s with
           | Ok (a, s') => k a s'
           | Fault f => Fault f
           end.

Definition raise {S A : Type} (f : fault) : M S A := fun _ => Fault f.

Notation "'let*' x ':=' m 'in' k" := (bind m (fun x => k))
  (at level 10, x pattern, m at level 200, k at level 200).
Notation "m >> k" := (bind m (fun _ => k))
  (at level 62, right associativity).

(** ** Character buffers *)

Definition NUL : ascii := "000"%char.

(** The C string held in a buffer: the bytes before the first NUL. *)
Fixpoint c_str (buf : list ascii) : string :=
  match buf with
  | [] => EmptyString
  | c :: r => if Ascii.eqb c NUL then EmptyString else String c (c_str r)
  end.

Definition strlen (buf : list ascii) : nat := String.length (c_str buf).

(** [buf[i] = c]: defined only inside the array. *)
Definition store {S : Type} (buf : list ascii) (i : Z) (c : ascii) : M S (list ascii) :=
  if (0 <=? i) && (i <? Z.of_nat (length buf))
  then ret (<[Z.to_nat i := c]> buf)
  else raise (OutOfBounds i (Z.of_nat (length buf))).

(** Copy [data] over the front of [buf]. *)
Definition blit (data buf : list ascii) : list ascii :=
  data ++ drop (length data) buf.

(** ** libc conversions *)

Definition isspace (c : ascii) : bool :=
  let n := nat_of_ascii c in
  (n =? 32)%nat || ((9 <=? n)%nat && (n <=? 13)%nat).

Definition isdigit (c : ascii) : bool :=
  let n := nat_of_ascii c in (48 <=? n)%nat && (n <=? 57)%nat.

Definition digit_val (c : ascii) : Z := Z.of_nat (nat_of_ascii c) - 48.

Fixpoint skip_space (s : string) : string :=
  match s with
  | String c r => if isspace c then skip_space r else s
  | EmptyString => s
  end.

(** Value of the leading run of decimal digits. *)
Fixpoint scan_digits (acc : Z) (s : string) : Z :=
  match s with
  | String c r => if isdigit c then scan_digits (10 * acc + digit_val c) r else acc
  | EmptyString => acc
  end.

(** sscanf(s, "%d", &x).  [None] stands for the return values 0 and EOF,
    both below 1; [Some v] for the return value 1 with [x = v].  A number
    outside [long] saturates and the result is then cut to [int], as the
    C library of the target does (ISO C leaves this case undefined). *)
Definition sscanf_d (s : string) : option Z :=
  let s := skip_space s in
  let '(neg, s) := match s with
                   | String "-"%char r => (true, r)
                   | String "+"%char r => (false, r)
                   | _ => (false, s)
                   end in
  match s with
  | String c _ =>
      if isdigit c then
        let n := scan_digits 0 s in
        let n := if neg then - n else n in
        let n := Z.max (- 2 ^ 63) (Z.min (2 ^ 63 - 1) n) in
        Some (wrap_int n)
      else None
  | EmptyString => None
  end.

Definition digit_char (d : Z) : ascii := ascii_of_nat (48 + Z.to_nat d).

(** The decimal digits of [n], least significant first onto [acc]; ten
    digits are enough for 32 bits. *)
Fixpoint fmt_digits (fuel : nat) (n : Z) (acc : string) : string :=
  match fuel with
  | O => acc
  | S fuel =>
      let acc := String (digit_char (n mod 10)) acc in
      if n / 10 =? 0 then acc else fmt_digits fuel (n / 10) acc
  end.

(** Decimal text of an [int], as printf's "%d" writes it. *)
Definition fmt_d (z : Z) : string :=
  if z <? 0 then String "-" (fmt_digits 10 (- z) "") else fmt_digits 10 z "".

(** snprintf(buf, buflen, "%d", v): at most [buflen - 1] characters and the
    terminator are stored, the full length is returned. *)
Definition snprintf_d (buf : list ascii) (buflen : Z) (v : Z) : Z * list ascii :=
  let s := list_ascii_of_string (fmt_d v) in
  (Z.of_nat (length s), blit (take (Z.to_nat (buflen - 1)) s ++ [NUL]) buf).

Definition blit_Z (data buf : list Z) : list Z :=
  data ++ drop (length data) buf.

(** ** libpulse: volumes and device records

    The constants and the three volume functions are those of libpulse
    (pulse/volume.h, pulse/volume.c); they are not part of the program. *)

Definition PA_VOLUME_NORM : Z := 65536.          (* 0x10000U *)
Definition PA_VOLUME_MUTED : Z := 0.
Definition PA_VOLUME_MAX : Z := 2147483647.      (* UINT32_MAX / 2 *)
Definition PA_CHANNELS_MAX : Z := 32.

Definition to_uint32 (z : Z) : Z := z mod 2 ^ 32.

Definition PA_CLAMP_UNLIKELY (x low high : Z) : Z :=
  if x >? high then high else if x <? low then low else x.

Definition PA_CLAMP_VOLUME (v : Z) : Z := PA_CLAMP_UNLIKELY v PA_VOLUME_MUTED PA_VOLUME_MAX.

Record pa_cvolume : Type := {
  channels : Z;        (* uint8_t *)
  values : list Z      (* pa_volume_t values[PA_CHANNELS_MAX] *)
}.

Definition channel_values (a : pa_cvolume) : list Z :=
  take (Z.to_nat (channels a)) (values a).

Definition pa_cvolume_valid (a : pa_cvolume) : bool :=
  (1 <=? channels a) && (channels a <=? PA_CHANNELS_MAX)
  && forallb (fun v => v <=? PA_VOLUME_MAX) (channel_values a).

Definition pa_cvolume_max (a : pa_cvolume) : Z :=
  if pa_cvolume_valid a
  then fold_left (fun m v => if v >? m then v else m) (channel_values a) PA_VOLUME_MUTED
  else PA_VOLUME_MUTED.

(** Every channel is multiplied by [max / t], [t] the loudest channel, so
    that the loudest channel becomes [max]. *)
Definition pa_cvolume_scale (v : pa_cvolume) (max : Z) : pa_cvolume :=
  if negb (pa_cvolume_valid v) || (max =? 2 ^ 32 - 1) then v else
  let t := pa_cvolume_max v in
  let n := Z.to_nat (channels v) in
  if t <=? PA_VOLUME_MUTED
  then {| channels := channels v;
          values := blit_Z (replicate n (PA_CLAMP_VOLUME max)) (values v) |}
  else {| channels := channels v;
          values := blit_Z (map (fun x => PA_CLAMP_VOLUME (Z.quot (x * max) t)) (channel_values v))
                           (values v) |}.

Definition pad3 (s : string) : string :=
  match String.length s with
  | 0%nat => "   " +:+ s
  | 1%nat => "  " +:+ s
  | 2%nat => " " +:+ s
  | _ => s
  end.

(** pa_volume_snprint: the volume as a percentage of normal, "%3u%%". *)
Definition pa_volume_snprint (v : Z) : string :=
  if v <=? PA_VOLUME_MAX
  then pad3 (fmt_d (Z.quot (v * 100 + Z.quot PA_VOLUME_NORM 2) PA_VOLUME_NORM)) +:+ "%"
  else "(invalid)".

Record pa_sink_info : Type := {
  si_index : Z;            (* uint32_t index *)
  si_mute : Z;             (* int mute *)
  si_volume : pa_cvolume
}.

Record pa_source_info : Type := {
  so_index : Z;
  so_mute : Z
}.

Record pa_server_info : Type := {
  default_sink_name : string;
  default_source_name : string
}.

(** The callbacks the program hands to libpulse. *)
Inductive callback : Type :=
  | cb_pulse_sm
  | cb_do_pulse_server_info
  | cb_do_pulse_vs
  | cb_do_pulse_m
  | cb_do_pulse_success.

(** The operations the program sends on the context, with their callback. *)
Inductive pa_request : Type :=
  | get_server_info (cb : callback)
  | get_sink_info_by_name (name : string) (cb : callback)
  | get_source_info_by_name (name : string) (cb : callback)
  | set_sink_mute_by_index (idx : Z) (mute : Z) (cb : callback)
  | set_sink_volume_by_index (idx : Z) (volume : pa_cvolume) (cb : callback)
  | set_source_mute_by_index (idx : Z) (mute : Z) (cb : callback).

Definition is_mutation (r : pa_request) : bool :=
  match r with
  | set_sink_mute_by_index _ _ _
  | set_sink_volume_by_index _ _ _
  | set_source_mute_by_index _ _ _ => true
  | _ => false
  end.

Definition request_cb (r : pa_request) : callback :=
  match r with
  | get_server_info cb
  | get_sink_info_by_name _ cb
  | get_source_info_by_name _ cb
  | set_sink_mute_by_index _ _ cb
  | set_sink_volume_by_index _ _ cb
  | set_source_mute_by_index _ _ cb => cb
  end.

(** ** The audio server, as far as the program observes it *)

Record pa_device : Type := {
  dev_name : string;
  dev_index : Z;
  dev_muted : bool;
  dev_volume : pa_cvolume
}.

Record pa_env : Type := {
  mainloop_new_ok : bool;     (* pa_mainloop_new returns a loop *)
  signal_init_ok : bool;      (* pa_signal_init returns 0 *)
  context_new_ok : bool;      (* pa_context_new returns a context *)
  connect_ok : bool;          (* pa_context_connect returns >= 0 *)
  becomes_ready : bool;       (* the context reaches READY (else FAILED) *)
  server_info : pa_server_info;
  sinks : list pa_device;
  sources : list pa_device
}.

(** ** The sysfs files *)

Record sysfs_file : Type := {
  can_open_rd : bool;        (* open(path, O_RDONLY) succeeds *)
  on_read : option string;   (* bytes read(2) delivers; None: read returns -1 *)
  can_open_wr : bool;        (* open(path, O_WRONLY) succeeds *)
  on_write : option Z        (* bytes write(2) accepts at most; None: write returns -1 *)
}.

(** One entry per write(2) call: path, the bytes handed over, the return value. *)
Record write_call : Type := {
  wr_path : string;
  wr_data : string;
  wr_ret : Z
}.

Record world : Type := {
  files : gmap string sysfs_file;   (* a path that is absent cannot be opened *)
  written : list write_call;
  stdout : string;
  stderr : list string;
  audio : pa_env
}.

Definition set_written (w : world) (l : list write_call) : world :=
  {| files := files w; written := l; stdout := stdout w; stderr := stderr w; audio := audio w |}.
Definition set_stdout (w : world) (s : string) : world :=
  {| files := files w; written := written w; stdout := s; stderr := stderr w; audio := audio w |}.
Definition set_stderr (w : world) (l : list string) : world :=
  {| files := files w; written := written w; stdout := stdout w; stderr := l; audio := audio w |}.
Definition set_audio (w : world) (a : pa_env) : world :=
  {| files := files w; written := written w; stdout := stdout w; stderr := stderr w;
     audio := a |}.

Inductive open_flag : Type := O_RDONLY | O_WRONLY.

(** A descriptor is the path it was opened on; [None] is the C value -1. *)
Definition sys_open (path : string) (flag : open_flag) : M world (option string) :=
  fun w =>
    match files w !! path with
    | Some f =>
        if match flag with O_RDONLY => can_open_rd f | O_WRONLY => can_open_wr f end
        then Ok (Some path, w)
        else Ok (None, w)
    | None => Ok (None, w)
    end.

(** read(fd, buf, count): at most [count] bytes land at the front of [buf]. *)
Definition sys_read (fd : string) (buf : list ascii) (count : Z) : M world (Z * list ascii) :=
  fun w =>
    match files w !! fd ≫= on_read with
    | None => Ok ((-1, buf), w)
    | Some data =>
        let bytes := take (Z.to_nat (to_size_t count)) (list_ascii_of_string data) in
        let n := Z.of_nat (length bytes) in
        if n <=? Z.of_nat (length buf)
        then Ok ((n, blit bytes buf), w)
        else Fault (OutOfBounds n (Z.of_nat (length buf)))
    end.

(** write(fd, buf, nbytes): the file accepts a prefix of the [nbytes] bytes.
    The bytes are read from the array: a count beyond its length (a
    negative [ssize_t] is a huge [size_t]) reads outside it. *)
Definition sys_write (fd : string) (buf : list ascii) (nbytes : Z) : M world Z :=
  fun w =>
    if (0 <=? nbytes) && (nbytes <=? Z.of_nat (length buf)) then
      let data := string_of_list_ascii (take (Z.to_nat nbytes) buf) in
      let r := match files w !! fd ≫= on_write with
               | None => -1
               | Some k => Z.min (Z.max 0 k) nbytes
               end in
      Ok (r, set_written w (written w ++ [{| wr_path := fd; wr_data := data; wr_ret := r |}]))
    else Fault (OutOfBounds (to_size_t nbytes) (Z.of_nat (length buf))).

Definition sys_close (fd : string) : M world unit := ret tt.

(** perror(msg): the message and the text of errno, which is not modelled. *)
Definition perror (msg : string) : M world unit :=
  fun w => Ok (tt, set_stderr w (stderr w ++ [msg])).

Definition eprint (msg : string) : M world unit :=
  fun w => Ok (tt, set_stderr w (stderr w ++ [msg])).

Definition print (msg : string) : M world unit :=
  fun w => Ok (tt, set_stdout w (stdout w +:+ msg)).

(** ** Sysfs accessor *)

Definition MAX_BRIGHTNESS_PATH : string := "/sys/class/backlight/intel_backlight/max_brightness".
Definition BRIGHTNESS_PATH : string := "/sys/class/backlight/intel_backlight/brightness".

Definition is_trimmed (c : ascii) : bool :=
  let n := nat_of_ascii c in
  (n =? 13)%nat || (n =? 10)%nat || (n =? 32)%nat || (n =? 0)%nat.

(** The scan of [rtrim]: [n] is [c - str + 1], so [c >= str] is [n > 0];
    the result is the index [c + 1] where the terminator is stored. *)
Fixpoint rtrim_scan (buf : list ascii) (n : nat) : nat :=
  match n with
  | O => O
  | S c =>
      match buf !! c with
      | Some ch => if is_trimmed ch then rtrim_scan buf c else n
      | None => n
      end
  end.

Definition rtrim {St : Type} (buf : list ascii) : M St (list ascii) :=
  store buf (Z.of_nat (rtrim_scan buf (S (strlen buf)))) NUL.

Definition read_sysfs (path : string) (buf : list ascii) (buflen : Z)
  : M world (Z * list ascii) :=
  let* fd := sys_open path O_RDONLY in
  match fd with
  | None =>
      perror "read_sysfs failed (open)" >>
      ret (-1, buf)
  | Some fd =>
      let* (rdlen, buf) := sys_read fd buf (buflen - 1) in
      (if rdlen =? -1 then perror "read_sysfs failed (read)" else ret tt) >>
      sys_close fd >>
      let* buf := store buf rdlen NUL in
      ret (rdlen, buf)
  end.

Definition write_sysfs (path : string) (buf : list ascii) (nbytes : Z) : M world Z :=
  let* fd := sys_open path O_WRONLY in
  match fd with
  | None =>
      perror "write_sysfs failed (open)" >>
      ret (-1)
  | Some fd =>
      let* wrlen := sys_write fd buf nbytes in
      (if (wrlen =? -1) || (wrlen <? nbytes)
       then perror "write_sysfs failed (write)" else ret tt) >>
      sys_close fd >>
      ret wrlen
  end.

(** ** Brightness controller *)

Definition clamp_brightness (br max_br : Z) : Z :=
  if br <? 0 then 0 else if br >? max_br then max_br else br.

Definition do_brightness (delta : Z) : M world Z :=
  let buf := replicate 512 NUL in
  let buflen := 512 in
  let* (rwlen, buf) := read_sysfs MAX_BRIGHTNESS_PATH buf buflen in
  if rwlen =? -1 then ret 1 else
  let max_br := match sscanf_d (c_str buf) with
                | Some v => v
                | None => 2147483647
                end in
  let* (rwlen, buf) := read_sysfs BRIGHTNESS_PATH buf buflen in
  if rwlen =? -1 then ret 1 else
  match sscanf_d (c_str buf) with
  | None =>
      eprint "invalid brightness from sysfs
" >>
      ret 1
  | Some br =>
      let br := wrap_int (br + delta) in
      let br := clamp_brightness br max_br in
      let '(rwlen, buf) := snprintf_d buf buflen br in
      let* rwlen := write_sysfs BRIGHTNESS_PATH buf rwlen in
      if rwlen =? -1 then ret 1 else
      let* buf := rtrim buf in
      print ("Brightness: " +:+ c_str buf) >>
      ret 0
  end.


(** ** Audio path: globals, main loop and context *)

Record pulse : Type := {
  pulse_mapi : bool;              (* the global pointer is non-NULL *)
  pulse_arg : Z;
  pulse_op : ascii;
  loop_quit : option Z;           (* the loop's quit flag with its retval *)
  requests : list pa_request;     (* operations sent on the context, in order *)
  env : world
}.

Definition set_loop_quit (st : pulse) (q : option Z) : pulse :=
  {| pulse_mapi := pulse_mapi st; pulse_arg := pulse_arg st; pulse_op := pulse_op st;
     loop_quit := q; requests := requests st; env := env st |}.
Definition set_requests (st : pulse) (l : list pa_request) : pulse :=
  {| pulse_mapi := pulse_mapi st; pulse_arg := pulse_arg st; pulse_op := pulse_op st;
     loop_quit := loop_quit st; requests := l; env := env st |}.
Definition set_env (st : pulse) (w : world) : pulse :=
  {| pulse_mapi := pulse_mapi st; pulse_arg := pulse_arg st; pulse_op := pulse_op st;
     loop_quit := loop_quit st; requests := requests st; env := w |}.

(** Run a computation on the process's files and streams inside the audio path. *)
Definition in_env {A : Type} (m : M world A) : M pulse A :=
  fun st => match m (env st) with
            | Ok (a, w) => Ok (a, set_env st w)
            | Fault f => Fault f
            end.

Definition send (r : pa_request) : M pulse unit :=
  fun st => Ok (tt, set_requests st (requests st ++ [r])).

(** [!x] on an [int]. *)
Definition c_not (x : Z) : Z := if x =? 0 then 1 else 0.

Definition pulse_quit (e : Z) : M pulse unit :=
  fun st => if pulse_mapi st then Ok (tt, set_loop_quit st (Some e)) else Ok (tt, st).

Definition do_pulse_success (success : Z) : M pulse unit :=
  pulse_quit 0.

(** Lines 134-138: the volume handed to pa_cvolume_scale, from the loudest
    channel and the delta. *)
Definition new_volume (cvol_max arg : Z) : Z :=
  let new_volume := wrap_int (wrap_int cvol_max + arg) in
  let normal_volume := wrap_int PA_VOLUME_NORM in
  let new_volume :=
    if (new_volume >? Z.quot (normal_volume * 98) 100)
       && (new_volume <? Z.quot (normal_volume * 102) 100)
    then normal_volume else new_volume in
  PA_CLAMP_UNLIKELY new_volume (wrap_int PA_VOLUME_MUTED) normal_volume.

Definition do_pulse_vs (i : option pa_sink_info) (eol : Z) : M pulse unit :=
  if eol <? 0 then
    in_env (eprint ("pa_context_get_sink_info_by_name failed: " +:+ fmt_d eol +:+ "
")) >>
    pulse_quit 1
  else if negb (eol =? 0) then ret tt
  else
    match i with
    | None => raise AssertFailed
    | Some i => fun st =>
        (if Ascii.eqb (pulse_op st) "s" then
           let new_mute := c_not (si_mute i) in
           send (set_sink_mute_by_index (si_index i) new_mute cb_do_pulse_success) >>
           in_env (print (if negb (new_mute =? 0) then "Speakers muted" else "Speakers on"))
         else if Ascii.eqb (pulse_op st) "v" then
           if channels (si_volume i) <? 1 then pulse_quit 0
           else
             let new_cvol := si_volume i in
             let new_volume := new_volume (pa_cvolume_max new_cvol) (pulse_arg st) in
             let new_cvol := pa_cvolume_scale new_cvol (to_uint32 new_volume) in
             send (set_sink_volume_by_index (si_index i) new_cvol cb_do_pulse_success) >>
             in_env (print ("Speakers " +:+ pa_volume_snprint (to_uint32 new_volume)))
         else
           in_env (eprint ("unexpected pulse op " +:+ String (pulse_op st) ""
                           +:+ " in do_pulse_vs
")) >>
           pulse_quit 1) st
    end.

Definition do_pulse_m (i : option pa_source_info) (eol : Z) : M pulse unit :=
  if eol <? 0 then
    in_env (eprint ("pa_context_get_source_info_by_name failed: " +:+ fmt_d eol +:+ "
")) >>
    pulse_quit 1
  else if negb (eol =? 0) then ret tt
  else
    match i with
    | None => raise AssertFailed
    | Some i =>
        let new_mute := c_not (so_mute i) in
        send (set_source_mute_by_index (so_index i) new_mute cb_do_pulse_success) >>
        in_env (print (if negb (new_mute =? 0) then "Mic muted" else "Mic on"))
    end.

Definition do_pulse_server_info (i : pa_server_info) : M pulse unit :=
  fun st =>
    (if Ascii.eqb (pulse_op st) "v" || Ascii.eqb (pulse_op st) "s" then
       send (get_sink_info_by_name (default_sink_name i) cb_do_pulse_vs)
     else if Ascii.eqb (pulse_op st) "m" then
       send (get_source_info_by_name (default_source_name i) cb_do_pulse_m)
     else ret tt) st.

Definition pulse_sigint_callback : M pulse unit := pulse_quit 0.

Inductive pa_context_state : Type :=
  | PA_CONTEXT_UNCONNECTED
  | PA_CONTEXT_CONNECTING
  | PA_CONTEXT_AUTHORIZING
  | PA_CONTEXT_SETTING_NAME
  | PA_CONTEXT_READY
  | PA_CONTEXT_FAILED
  | PA_CONTEXT_TERMINATED.

Definition pulse_sm (state : pa_context_state) : M pulse unit :=
  match state with
  | PA_CONTEXT_FAILED => pulse_quit 1
  | PA_CONTEXT_READY => send (get_server_info cb_do_pulse_server_info)
  | _ => ret tt
  end.

(** ** The main loop: replies of the server and their dispatch *)

Inductive reply : Type :=
  | r_server_info (i : pa_server_info)
  | r_sink_info (i : option pa_sink_info) (eol : Z)
  | r_source_info (i : option pa_source_info) (eol : Z)
  | r_success (success : Z).

Definition fire (cb : callback) (r : reply) : M pulse unit :=
  match cb, r with
  | cb_do_pulse_server_info, r_server_info i => do_pulse_server_info i
  | cb_do_pulse_vs, r_sink_info i eol => do_pulse_vs i eol
  | cb_do_pulse_m, r_source_info i eol => do_pulse_m i eol
  | cb_do_pulse_success, r_success success => do_pulse_success success
  | _, _ => ret tt
  end.

Definition find_device (name : string) (l : list pa_device) : option pa_device :=
  List.find (fun d => String.eqb (dev_name d) name) l.

Definition sink_info_of (d : pa_device) : pa_sink_info :=
  {| si_index := dev_index d;
     si_mute := if dev_muted d then 1 else 0;
     si_volume := dev_volume d |}.

Definition source_info_of (d : pa_device) : pa_source_info :=
  {| so_index := dev_index d; so_mute := if dev_muted d then 1 else 0 |}.

Definition has_index (idx : Z) (l : list pa_device) : bool :=
  existsb (fun d => dev_index d =? idx) l.

Definition set_mute (idx mute : Z) (l : list pa_device) : list pa_device :=
  map (fun d => if dev_index d =? idx
                then {| dev_name := dev_name d; dev_index := dev_index d;
                        dev_muted := negb (mute =? 0); dev_volume := dev_volume d |}
                else d) l.

Definition set_volume (idx : Z) (v : pa_cvolume) (l : list pa_device) : list pa_device :=
  map (fun d => if dev_index d =? idx
                then {| dev_name := dev_name d; dev_index := dev_index d;
                        dev_muted := dev_muted d; dev_volume := v |}
                else d) l.

Definition set_sinks (a : pa_env) (l : list pa_device) : pa_env :=
  {| mainloop_new_ok := mainloop_new_ok a; signal_init_ok := signal_init_ok a;
     context_new_ok := context_new_ok a; connect_ok := connect_ok a;
     becomes_ready := becomes_ready a; server_info := server_info a;
     sinks := l; sources := sources a |}.

Definition set_sources (a : pa_env) (l : list pa_device) : pa_env :=
  {| mainloop_new_ok := mainloop_new_ok a; signal_init_ok := signal_init_ok a;
     context_new_ok := context_new_ok a; connect_ok := connect_ok a;
     becomes_ready := becomes_ready a; server_info := server_info a;
     sinks := sinks a; sources := l |}.

(** What the server does with one request and what libpulse then delivers:
    a by-name query yields the record with [eol = 0] followed by the
    end-of-list call with [eol = 1], or a single call with [eol = -1] when
    the server answers with an error; a mutation yields its success flag. *)
Definition serve (r : pa_request) (a : pa_env) : pa_env * list (callback * reply) :=
  match r with
  | get_server_info cb => (a, [(cb, r_server_info (server_info a))])
  | get_sink_info_by_name name cb =>
      match find_device name (sinks a) with
      | Some d => (a, [(cb, r_sink_info (Some (sink_info_of d)) 0); (cb, r_sink_info None 1)])
      | None => (a, [(cb, r_sink_info None (-1))])
      end
  | get_source_info_by_name name cb =>
      match find_device name (sources a) with
      | Some d => (a, [(cb, r_source_info (Some (source_info_of d)) 0);
                       (cb, r_source_info None 1)])
      | None => (a, [(cb, r_source_info None (-1))])
      end
  | set_sink_mute_by_index idx mute cb =>
      if has_index idx (sinks a)
      then (set_sinks a (set_mute idx mute (sinks a)), [(cb, r_success 1)])
      else (a, [(cb, r_success 0)])
  | set_sink_volume_by_index idx v cb =>
      if has_index idx (sinks a)
      then (set_sinks a (set_volume idx v (sinks a)), [(cb, r_success 1)])
      else (a, [(cb, r_success 0)])
  | set_source_mute_by_index idx mute cb =>
      if has_index idx (sources a)
      then (set_sources a (set_mute idx mute (sources a)), [(cb, r_success 1)])
      else (a, [(cb, r_success 0)])
  end.

Fixpoint fire_all (l : list (callback * reply)) : M pulse unit :=
  match l with
  | [] => ret tt
  | (cb, r) :: l => fire cb r >> fire_all l
  end.

(** pa_mainloop_run: one request is answered per iteration; the loop
    returns the retval once quit was requested.  [served] counts the
    requests already answered. *)
Fixpoint pa_mainloop_run (fuel served : nat) (st : pulse) : outcome (Z * pulse) :=
  match loop_quit st with
  | Some e => Ok (e, st)
  | None =>
      match fuel with
      | O => Fault OutOfFuel
      | S fuel =>
          match requests st !! served with
          | None => Fault Blocked
          | Some r =>
              let '(a, replies) := serve r (audio (env st)) in
              match fire_all replies (set_env st (set_audio (env st) a)) with
              | Ok (_, st) => pa_mainloop_run fuel (S served) st
              | Fault f => Fault f
              end
          end
      end
  end.

(** ** Command dispatcher *)

Definition print_usage : M world unit :=
  eprint "usage: sltpwmt <v(olume)/b(rightness)/s(peaker toggle mute)/m(ic toggle mute)> [arg]
".

Definition first_char (s : string) : ascii :=
  match s with String c _ => c | EmptyString => NUL end.

(** The audio branch of [main], from the assignment of the globals to the
    [exit] label. *)
Definition pulse_session (op : ascii) (arg : Z) : M world Z :=
  fun w =>
    let a := audio w in
    if negb (mainloop_new_ok a) then
      (eprint "pa_mainloop_new failed
" >> ret 1) w
    else
      let st := {| pulse_mapi := true; pulse_arg := arg; pulse_op := op;
                   loop_quit := None; requests := []; env := w |} in
      if negb (signal_init_ok a) then
        match (in_env (eprint "pa_signal_init failed
") >> pulse_quit 1) st with
        | Ok (_, st) => Ok (1, env st)
        | Fault f => Fault f
        end
      else if negb (context_new_ok a) then
        (eprint "pa_context_new failed
" >> ret 1) w
      else if negb (connect_ok a) then
        (eprint "pa_context_connect failed
" >> ret 1) w
      else
        match (pulse_sm PA_CONTEXT_CONNECTING >>
               (if becomes_ready a
                then pulse_sm PA_CONTEXT_AUTHORIZING >>
                     pulse_sm PA_CONTEXT_SETTING_NAME >>
                     pulse_sm PA_CONTEXT_READY
                else pulse_sm PA_CONTEXT_FAILED)) st with
        | Ok (_, st) =>
            match pa_mainloop_run 8 0 st with
            | Ok (e, st) => Ok (e, env st)
            | Fault f => Fault f
            end
        | Fault f => Fault f
        end.

Definition main (argv : list string) : M world Z :=
  let argc := Z.of_nat (length argv) in
  if argc <? 2 then print_usage >> ret 1 else
  match (if argc >=? 3 then sscanf_d (default "" (argv !! 2%nat)) else Some (-1)) with
  | None =>
      eprint "invalid arg value
" >> ret 1
  | Some arg =>
      let op := first_char (default "" (argv !! 1%nat)) in
      if Ascii.eqb op "b" then
        if argc <? 3 then
          eprint "need arg for brightness
" >> ret 1
        else do_brightness arg
      else if Ascii.eqb op "v" && (argc <? 3) then
        eprint "need arg for volume
" >> ret 1
      else if Ascii.eqb op "v" || Ascii.eqb op "s" || Ascii.eqb op "m" then
        pulse_session op arg
      else
        eprint "unknown action
" >> ret 1
  end.

(** ** Worlds used by the examples *)

Definition plain_file (content : string) : sysfs_file :=
  {| can_open_rd := true; on_read := Some content;
     can_open_wr := true; on_write := Some 4096 |}.

Definition stereo (l r : Z) : pa_cvolume := {| channels := 2; values := [l; r] |}.

Definition speakers (muted : bool) (v : pa_cvolume) : pa_device :=
  {| dev_name := "alsa_output"; dev_index := 0; dev_muted := muted; dev_volume := v |}.

Definition mic (muted : bool) : pa_device :=
  {| dev_name := "alsa_input"; dev_index := 1; dev_muted := muted;
     dev_volume := {| channels := 1; values := [PA_VOLUME_NORM] |} |}.

Definition desktop_audio (sinks sources : list pa_device) : pa_env :=
  {| mainloop_new_ok := true; signal_init_ok := true; context_new_ok := true;
     connect_ok := true; becomes_ready := true;
     server_info := {| default_sink_name := "alsa_output";
                       default_source_name := "alsa_input" |};
     sinks := sinks; sources := sources |}.

Definition machine (max_file br_file : option sysfs_file) (a : pa_env) : world :=
  {| files := from_option (fun f => <[MAX_BRIGHTNESS_PATH := f]>) id max_file
                (from_option (fun f => <[BRIGHTNESS_PATH := f]>) id br_file ∅);
     written := []; stdout := ""; stderr := []; audio := a |}.

Definition laptop (max_br br : string) : world :=
  machine (Some (plain_file max_br)) (Some (plain_file br))
          (desktop_audio [speakers false (stereo 30000 60000)] [mic false]).

(** The audio path once the device query is out: nothing was quit, no
    record was delivered yet. *)
Definition awaiting_device (op : ascii) (arg : Z) (w : world) : pulse :=
  {| pulse_mapi := true; pulse_arg := arg; pulse_op := op; loop_quit := None;
     requests := [get_server_info cb_do_pulse_server_info;
                  if Ascii.eqb op "m"
                  then get_source_info_by_name
                         (default_source_name (server_info (audio w))) cb_do_pulse_m
                  else get_sink_info_by_name
                         (default_sink_name (server_info (audio w))) cb_do_pulse_vs];
     env := w |}.

(** ** Notions used in the statements *)

(** The session can be set up and the context becomes ready. *)
Definition session_up (a : pa_env) : bool :=
  mainloop_new_ok a && signal_init_ok a && context_new_ok a && connect_ok a
  && becomes_ready a.

(** The device an operation acts on: the default source for 'm', the
    default sink otherwise. *)
Definition default_device (op : ascii) (a : pa_env) : option pa_device :=
  if Ascii.eqb op "m"
  then find_device (default_source_name (server_info a)) (sources a)
  else find_device (default_sink_name (server_info a)) (sinks a).

Definition default_muted (op : ascii) (w : world) : option bool :=
  dev_muted <$> default_device op (audio w).

Definition with_muted (d : pa_device) (b : bool) : pa_device :=
  {| dev_name := dev_name d; dev_index := dev_index d;
     dev_muted := b; dev_volume := dev_volume d |}.

Definition result_of {S A : Type} (o : outcome (A * S)) : option A :=
  match o with Ok (a, _) => Some a | Fault _ => None end.

Definition state_of {S A : Type} (o : outcome (A * S)) : option S :=
  match o with Ok (_, s) => Some s | Fault _ => None end.


(** What [read_sysfs] leaves in a 512-byte buffer as a C string, when the
    file at [path] opens and its read succeeds. *)
Definition sysfs_text (w : world) (path : string) : option string :=
  f ← files w !! path;
  if can_open_rd f
  then (fun d => c_str (take 511 (list_ascii_of_string d))) <$> on_read f
  else None.

(** The return value of write(2) on the brightness file for the text of [v]. *)
Definition write_result (fb : sysfs_file) (v : Z) : Z :=
  match on_write fb with
  | None => -1
  | Some k => Z.min (Z.max 0 k) (Z.of_nat (String.length (fmt_d v)))
  end.

(** The file at [path] opens for reading and its read(2) then fails. *)
Definition read_fails (w : world) (path : string) : bool :=
  match files w !! path with
  | Some f => can_open_rd f && negb (bool_decide (is_Some (on_read f)))
  | None => false
  end.

(** A computation that leaves the three globals as they are. *)
Definition keeps_globals {A : Type} (m : M pulse A) : Prop :=
  forall st a st',
    m st = Ok (a, st') ->
    pulse_mapi st' = pulse_mapi st /\ pulse_arg st' = pulse_arg st
    /\ pulse_op st' = pulse_op st.

(** ** Notions used in the further properties *)

(** The audio path right after the context became ready: [main] has set
    the globals and [pulse_sm] has sent the server-info request. *)
Definition session_start (op : ascii) (arg : Z) (w : world) : pulse :=
  {| pulse_mapi := true; pulse_arg := arg; pulse_op := op; loop_quit := None;
     requests := [get_server_info cb_do_pulse_server_info]; env := w |}.

(** A computation that maintains a property of the audio-path state. *)
Definition preserves {A : Type} (P : pulse -> Prop) (m : M pulse A) : Prop :=
  forall st a st', P st -> m st = Ok (a, st') -> P st'.

(** The loop was not asked to quit, or was asked with status 0 or 1. *)
Definition quit_is_status (st : pulse) : Prop :=
  loop_quit st = None \/ loop_quit st = Some 0 \/ loop_quit st = Some 1.

Definition is_audio_op (op : ascii) : bool :=
  Ascii.eqb op "v" || Ascii.eqb op "s" || Ascii.eqb op "m".

Definition with_volume (d : pa_device) (v : pa_cvolume) : pa_device :=
  {| dev_name := dev_name d; dev_index := dev_index d;
     dev_muted := dev_muted d; dev_volume := v |}.

(** * Properties *)

(** ** The monad *)

Lemma bind_ok {S A B : Type} (m : M S A) (k : A -> M S B) (s s' : S) (a : A) :
  m s = Ok (a, s') -> bind m k s = k a s'.
Proof. intros H. unfold bind. now rewrite H. Qed.

Lemma bind_fault {S A B : Type} (m : M S A) (k : A -> M S B) (s : S) (f : fault) :
  m s = Fault f -> bind m k s = Fault f.
Proof. intros H. unfold bind. now rewrite H. Qed.

(** ** Buffers *)

Lemma c_str_app_nul (l r : list ascii) : c_str (l ++ NUL :: r) = c_str l.
Proof.
  induction l as [|c l IH]; simpl.
  - reflexivity.
  - destruct (Ascii.eqb c NUL); [reflexivity | now rewrite IH].
Qed.

Lemma c_str_length (l : list ascii) : (String.length (c_str l) <= length l)%nat.
Proof.
  induction l as [|c l IH]; simpl; [lia|].
  destruct (Ascii.eqb c NUL); simpl; lia.
Qed.

Lemma terminate_blit (bytes buf : list ascii) :
  (length bytes < length buf)%nat ->
  <[length bytes := NUL]> (blit bytes buf)
  = bytes ++ NUL :: drop (S (length bytes)) buf.
Proof.
  intros Hlt. unfold blit.
  rewrite insert_app_r_alt by lia. rewrite Nat.sub_diag.
  destruct (lookup_lt_is_Some_2 buf (length bytes) Hlt) as [x Hx].
  rewrite (drop_S _ _ _ Hx). reflexivity.
Qed.

Lemma blit_length (bytes buf : list ascii) :
  (length bytes <= length buf)%nat -> length (blit bytes buf) = length buf.
Proof. intros H. unfold blit. rewrite length_app, length_drop. lia. Qed.

Lemma store_ok {S : Type} (buf : list ascii) (i : nat) (c : ascii) (s : S) :
  (i < length buf)%nat -> store buf (Z.of_nat i) c s = Ok (<[i := c]> buf, s).
Proof.
  intros H. unfold store.
  replace (0 <=? Z.of_nat i) with true by (symmetry; apply Z.leb_le; lia).
  replace (Z.of_nat i <? Z.of_nat (length buf)) with true by (symmetry; apply Z.ltb_lt; lia).
  simpl. now rewrite Nat2Z.id.
Qed.

Lemma rtrim_scan_le (buf : list ascii) (n : nat) : (rtrim_scan buf n <= n)%nat.
Proof.
  induction n as [|n IH]; simpl; [lia|].
  destruct (buf !! n) as [ch|]; [|lia].
  destruct (is_trimmed ch); lia.
Qed.

Lemma fmt_digits_length (fuel : nat) (n : Z) (acc : string) :
  (String.length (fmt_digits fuel n acc) <= fuel + String.length acc)%nat.
Proof.
  revert n acc. induction fuel as [|fuel IH]; intros n acc; simpl; [lia|].
  destruct (n / 10 =? 0); simpl; [lia|].
  specialize (IH (n / 10) (String (digit_char (n mod 10)) acc)). simpl in IH. lia.
Qed.

Lemma fmt_d_length (z : Z) : (String.length (fmt_d z) <= 11)%nat.
Proof.
  unfold fmt_d. destruct (z <? 0); simpl.
  - pose proof (fmt_digits_length 10 (- z) ""). simpl in *. lia.
  - pose proof (fmt_digits_length 10 z ""). simpl in *. lia.
Qed.

Lemma list_ascii_length (s : string) :
  length (list_ascii_of_string s) = String.length s.
Proof. induction s; simpl; congruence. Qed.

(** ** Integers of the machine *)

Lemma wrap_int_id (z : Z) : INT_MIN <= z <= INT_MAX -> wrap_int z = z.
Proof.
  unfold INT_MIN, INT_MAX, wrap_int. intros H.
  rewrite Z.mod_small by lia. lia.
Qed.

Lemma wrap_int_range (z : Z) : INT_MIN <= wrap_int z <= INT_MAX.
Proof.
  unfold INT_MIN, INT_MAX, wrap_int.
  pose proof (Z.mod_pos_bound (z + 2 ^ 31) (2 ^ 32)). lia.
Qed.

(** ** Decimal text *)

Lemma digit_char_isdigit (d : Z) : 0 <= d <= 9 -> isdigit (digit_char d) = true.
Proof.
  intros H.
  assert (d = 0 \/ d = 1 \/ d = 2 \/ d = 3 \/ d = 4 \/ d = 5 \/ d = 6 \/ d = 7
          \/ d = 8 \/ d = 9) as Hd by lia.
  repeat (destruct Hd as [-> | Hd]; [reflexivity|]). subst. reflexivity.
Qed.

Lemma digit_val_char (d : Z) : 0 <= d <= 9 -> digit_val (digit_char d) = d.
Proof.
  intros H.
  assert (d = 0 \/ d = 1 \/ d = 2 \/ d = 3 \/ d = 4 \/ d = 5 \/ d = 6 \/ d = 7
          \/ d = 8 \/ d = 9) as Hd by lia.
  repeat (destruct Hd as [-> | Hd]; [reflexivity|]). subst. reflexivity.
Qed.

Lemma scan_fmt_digits (fuel : nat) (n : Z) (acc : string) :
  0 <= n < 10 ^ Z.of_nat fuel ->
  exists p, forall a, scan_digits a (fmt_digits fuel n acc) = scan_digits (a * p + n) acc.
Proof.
  revert n acc. induction fuel as [|fuel IH]; intros n acc Hn.
  - exists 1. intros a. cbn [fmt_digits]. f_equal.
    change (10 ^ Z.of_nat 0) with 1 in Hn. lia.
  - assert (Hd : 0 <= n mod 10 <= 9) by (pose proof (Z.mod_pos_bound n 10); lia).
    cbn [fmt_digits]. destruct (Z.eqb_spec (n / 10) 0) as [Hz|Hz].
    + exists 10. intros a. cbn [scan_digits].
      rewrite (digit_char_isdigit _ Hd), (digit_val_char _ Hd).
      f_equal. pose proof (Z.div_mod n 10). lia.
    + destruct (IH (n / 10) (String (digit_char (n mod 10)) acc)) as [p Hp].
      { rewrite Nat2Z.inj_succ, Z.pow_succ_r in Hn by lia.
        split; [apply Z.div_pos; lia | apply Z.div_lt_upper_bound; lia]. }
      exists (10 * p). intros a. rewrite Hp. cbn [scan_digits].
      rewrite (digit_char_isdigit _ Hd), (digit_val_char _ Hd).
      f_equal. pose proof (Z.div_mod n 10). lia.
Qed.

Lemma fmt_digits_head (fuel : nat) (n : Z) (c : ascii) (r : string) :
  isdigit c = true ->
  exists c' r', fmt_digits fuel n (String c r) = String c' r' /\ isdigit c' = true.
Proof.
  revert n c r. induction fuel as [|fuel IH]; intros n c r Hc; cbn [fmt_digits].
  - eauto.
  - assert (Hd : isdigit (digit_char (n mod 10)) = true)
      by (apply digit_char_isdigit; pose proof (Z.mod_pos_bound n 10); lia).
    destruct (n / 10 =? 0); [eauto|]. now apply IH.
Qed.

Lemma sscanf_d_digits (s : string) (c : ascii) (r : string) :
  s = String c r -> isdigit c = true ->
  sscanf_d s = Some (wrap_int (Z.max (- 2 ^ 63) (Z.min (2 ^ 63 - 1) (scan_digits 0 s)))).
Proof.
  intros -> Hc. unfold sscanf_d.
  destruct c as [[] [] [] [] [] [] [] []]; try discriminate Hc; reflexivity.
Qed.

Lemma sscanf_d_minus_digits (s : string) (c : ascii) (r : string) :
  s = String c r -> isdigit c = true ->
  sscanf_d (String "-" s)
  = Some (wrap_int (Z.max (- 2 ^ 63) (Z.min (2 ^ 63 - 1) (- scan_digits 0 s)))).
Proof.
  intros -> Hc. unfold sscanf_d.
  destruct c as [[] [] [] [] [] [] [] []]; try discriminate Hc; reflexivity.
Qed.

Lemma fmt_digits_10 (n : Z) :
  0 <= n < 10 ^ 10 ->
  exists c r, fmt_digits 10 n "" = String c r /\ isdigit c = true
              /\ scan_digits 0 (fmt_digits 10 n "") = n.
Proof.
  intros Hn.
  assert (Hd : isdigit (digit_char (n mod 10)) = true)
    by (apply digit_char_isdigit; pose proof (Z.mod_pos_bound n 10); lia).
  assert (Hh : exists c r, fmt_digits 10 n "" = String c r /\ isdigit c = true).
  { change (fmt_digits 10 n "")
      with (if n / 10 =? 0 then String (digit_char (n mod 10)) ""
            else fmt_digits 9 (n / 10) (String (digit_char (n mod 10)) "")).
    destruct (n / 10 =? 0); [eauto|]. now apply fmt_digits_head. }
  destruct Hh as (c & r & E & Hc). exists c, r. split; [exact E|]. split; [exact Hc|].
  destruct (scan_fmt_digits 10 n "" Hn) as [p Hp]. rewrite Hp. reflexivity.
Qed.

(** What "%d" prints, "%d" reads back. *)
Lemma sscanf_d_fmt_d (z : Z) : INT_MIN <= z <= INT_MAX -> sscanf_d (fmt_d z) = Some z.
Proof.
  unfold INT_MIN, INT_MAX. intros Hz. unfold fmt_d.
  destruct (Z.ltb_spec z 0).
  - destruct (fmt_digits_10 (- z)) as (c & r & E & Hc & Hs); [lia|].
    rewrite (sscanf_d_minus_digits _ c r E Hc), Hs. f_equal.
    rewrite Z.min_r, Z.max_r by lia. rewrite Z.opp_involutive.
    apply wrap_int_id. unfold INT_MIN, INT_MAX. lia.
  - destruct (fmt_digits_10 z) as (c & r & E & Hc & Hs); [lia|].
    rewrite (sscanf_d_digits _ c r E Hc), Hs. f_equal.
    rewrite Z.min_r, Z.max_r by lia.
    apply wrap_int_id. unfold INT_MIN, INT_MAX. lia.
Qed.

Lemma sscanf_d_range (s : string) (v : Z) : sscanf_d s = Some v -> INT_MIN <= v <= INT_MAX.
Proof.
  unfold sscanf_d.
  destruct (match skip_space s with
            | String "-"%char r => (true, r)
            | String "+"%char r => (false, r)
            | _ => (false, skip_space s)
            end) as [neg t].
  destruct t as [|c r]; [discriminate|].
  destruct (isdigit c); [|discriminate].
  intros [= <-]. apply wrap_int_range.
Qed.

(** ** The sysfs accessor *)

Lemma read_sysfs_ok (w : world) (path : string) (f : sysfs_file) (data : string)
      (buf : list ascii) :
  files w !! path = Some f -> can_open_rd f = true -> on_read f = Some data ->
  length buf = 512%nat ->
  let bytes := take 511 (list_ascii_of_string data) in
  read_sysfs path buf 512 w
  = Ok ((Z.of_nat (length bytes), bytes ++ NUL :: drop (S (length bytes)) buf), w).
Proof.
  intros Hf Ho Hr Hlen bytes. unfold read_sysfs.
  erewrite bind_ok; cycle 1.
  { unfold sys_open. rewrite Hf, Ho. reflexivity. }
  cbv beta iota.
  assert (Hb : (length bytes <= 511)%nat) by (unfold bytes; rewrite length_take; lia).
  erewrite bind_ok; cycle 1.
  { unfold sys_read. rewrite Hf. simpl. rewrite Hr. simpl.
    change (Z.to_nat (to_size_t (512 - 1))) with 511%nat. fold bytes.
    replace (Z.of_nat (length bytes) <=? Z.of_nat (length buf)) with true
      by (symmetry; apply Z.leb_le; lia).
    reflexivity. }
  cbv beta iota.
  replace (Z.of_nat (length bytes) =? -1) with false by (symmetry; apply Z.eqb_neq; lia).
  erewrite bind_ok by reflexivity.
  erewrite bind_ok by reflexivity.
  erewrite bind_ok; cycle 1.
  { apply store_ok. rewrite blit_length; lia. }
  rewrite terminate_blit by lia. reflexivity.
Qed.

Lemma sysfs_text_read (w : world) (path s : string) (buf : list ascii) :
  sysfs_text w path = Some s -> length buf = 512%nat ->
  exists n buf',
    read_sysfs path buf 512 w = Ok ((n, buf'), w)
    /\ 0 <= n < 512 /\ length buf' = 512%nat /\ c_str buf' = s.
Proof.
  unfold sysfs_text. intros Ht Hlen.
  destruct (files w !! path) as [f|] eqn:Hf; simpl in Ht; [|discriminate].
  destruct (can_open_rd f) eqn:Ho; [|discriminate].
  destruct (on_read f) as [data|] eqn:Hr; simpl in Ht; [|discriminate].
  injection Ht as <-.
  eexists _, _. split; [apply (read_sysfs_ok w path f data buf Hf Ho Hr Hlen)|].
  assert (Hb : (length (take 511 (list_ascii_of_string data)) <= 511)%nat)
    by (rewrite length_take; lia).
  split; [lia|]. split.
  - rewrite length_app. simpl. rewrite length_drop. lia.
  - apply c_str_app_nul.
Qed.

Lemma snprintf_d_text (buf : list ascii) (v : Z) :
  length buf = 512%nat ->
  let '(n, buf') := snprintf_d buf 512 v in
  n = Z.of_nat (String.length (fmt_d v))
  /\ length buf' = 512%nat
  /\ take (String.length (fmt_d v)) buf' = list_ascii_of_string (fmt_d v)
  /\ (strlen buf' <= 11)%nat.
Proof.
  intros Hlen. unfold snprintf_d.
  pose proof (fmt_d_length v) as H11.
  pose proof (list_ascii_length (fmt_d v)) as Hl.
  change (Z.to_nat (512 - 1)) with 511%nat.
  rewrite take_ge by lia.
  split; [now rewrite Hl|]. split.
  - rewrite blit_length; [exact Hlen|]. rewrite length_app. simpl. lia.
  - unfold blit. rewrite <- app_assoc. split.
    + rewrite <- Hl. apply take_app_length.
    + unfold strlen. simpl. rewrite c_str_app_nul.
      pose proof (c_str_length (list_ascii_of_string (fmt_d v))). lia.
Qed.

Lemma sys_write_in_bounds (w : world) (fd : string) (buf : list ascii) (nbytes : Z) :
  0 <= nbytes <= Z.of_nat (length buf) ->
  sys_write fd buf nbytes w
  = let data := string_of_list_ascii (take (Z.to_nat nbytes) buf) in
    let r := match files w !! fd ≫= on_write with
             | None => -1
             | Some k => Z.min (Z.max 0 k) nbytes
             end in
    Ok (r, set_written w (written w ++ [{| wr_path := fd; wr_data := data; wr_ret := r |}])).
Proof.
  intros H. unfold sys_write.
  replace (0 <=? nbytes) with true by (symmetry; apply Z.leb_le; lia).
  replace (nbytes <=? Z.of_nat (length buf)) with true by (symmetry; apply Z.leb_le; lia).
  reflexivity.
Qed.

Lemma take_text_in_bounds (buf : list ascii) (text : string) :
  take (String.length text) buf = list_ascii_of_string text ->
  0 <= Z.of_nat (String.length text) <= Z.of_nat (length buf).
Proof.
  intros H. apply (f_equal (@length ascii)) in H.
  rewrite length_take, list_ascii_length in H. lia.
Qed.

Lemma write_sysfs_closed (w : world) (path : string) (buf : list ascii) (n : Z) :
  (files w !! path ≫= fun f => if can_open_wr f then Some f else None) = None ->
  write_sysfs path buf n w
  = Ok (-1, set_stderr w (stderr w ++ ["write_sysfs failed (open)"])).
Proof.
  intros H. unfold write_sysfs.
  erewrite bind_ok; cycle 1.
  { unfold sys_open. destruct (files w !! path) as [f|]; simpl in H; [|reflexivity].
    destruct (can_open_wr f); [discriminate | reflexivity]. }
  reflexivity.
Qed.

Lemma write_sysfs_text (w : world) (fb : sysfs_file) (buf : list ascii) (v : Z) :
  files w !! BRIGHTNESS_PATH = Some fb -> can_open_wr fb = true ->
  take (String.length (fmt_d v)) buf = list_ascii_of_string (fmt_d v) ->
  exists w',
    write_sysfs BRIGHTNESS_PATH buf (Z.of_nat (String.length (fmt_d v))) w
    = Ok (write_result fb v, w')
    /\ written w' = written w ++ [{| wr_path := BRIGHTNESS_PATH; wr_data := fmt_d v;
                                     wr_ret := write_result fb v |}]
    /\ files w' = files w /\ audio w' = audio w.
Proof.
  intros Hf Ho Ht. unfold write_sysfs.
  erewrite bind_ok; cycle 1.
  { unfold sys_open. rewrite Hf, Ho. reflexivity. }
  cbv beta iota.
  erewrite bind_ok; cycle 1.
  { rewrite sys_write_in_bounds by (apply take_text_in_bounds, Ht).
    rewrite Hf. simpl. rewrite Nat2Z.id, Ht.
    rewrite string_of_list_ascii_of_string. fold (write_result fb v). reflexivity. }
  cbv beta.
  destruct ((write_result fb v =? -1)
            || (write_result fb v <? Z.of_nat (String.length (fmt_d v))));
    eexists; (split; [reflexivity|]); simpl; auto.
Qed.

(** The two reads at the head of [do_brightness], both successful: the
    goal is left at the parse of the current value, with [buf2] the buffer
    after the second read. *)
Ltac two_reads w sm sb Hm Hb :=
  let n1 := fresh "n1" in let buf1 := fresh "buf1" in let R1 := fresh "R1" in
  let Hn1 := fresh "Hn1" in let L1 := fresh "L1" in let T1 := fresh "T1" in
  let n2 := fresh "n2" in let buf2 := fresh "buf2" in let R2 := fresh "R2" in
  let Hn2 := fresh "Hn2" in let L2 := fresh "L2" in let T2 := fresh "T2" in
  destruct (sysfs_text_read w _ sm (replicate 512 NUL) Hm)
    as (n1 & buf1 & R1 & Hn1 & L1 & T1); [apply length_replicate|];
  erewrite bind_ok by exact R1; cbv beta iota;
  replace (n1 =? -1) with false by (symmetry; apply Z.eqb_neq; lia);
  destruct (sysfs_text_read w _ sb buf1 Hb L1) as (n2 & buf2 & R2 & Hn2 & L2 & T2);
  erewrite bind_ok by exact R2; cbv beta iota;
  replace (n2 =? -1) with false by (symmetry; apply Z.eqb_neq; lia);
  rewrite ?T1, ?T2.

(** The run of [do_brightness] when both files are read and the current
    value parses: the clamped value goes to write_sysfs. *)
Lemma do_brightness_parsed (w : world) (delta : Z) (sm sb : string) (br : Z)
      (fb : sysfs_file) :
  sysfs_text w MAX_BRIGHTNESS_PATH = Some sm ->
  sysfs_text w BRIGHTNESS_PATH = Some sb ->
  sscanf_d sb = Some br ->
  files w !! BRIGHTNESS_PATH = Some fb -> can_open_wr fb = true ->
  let v := clamp_brightness (wrap_int (br + delta)) (default 2147483647 (sscanf_d sm)) in
  exists w',
    do_brightness delta w = Ok ((if write_result fb v =? -1 then 1 else 0), w')
    /\ written w' = written w ++ [{| wr_path := BRIGHTNESS_PATH; wr_data := fmt_d v;
                                     wr_ret := write_result fb v |}]
    /\ files w' = files w /\ audio w' = audio w.
Proof.
  intros Hm Hb Hp Hf Ho v. unfold do_brightness.
  two_reads w sm sb Hm Hb.
  rewrite Hp.
  replace (match sscanf_d sm with Some v0 => v0 | None => 2147483647 end)
    with (default 2147483647 (sscanf_d sm)) by (destruct (sscanf_d sm); reflexivity).
  fold v.
  pose proof (snprintf_d_text buf2 v L2) as Hs.
  destruct (snprintf_d buf2 512 v) as [n3 buf3].
  destruct Hs as (-> & L3 & T3 & S3).
  destruct (write_sysfs_text w fb buf3 v Hf Ho T3) as (w1 & W & Hw & Hfi & Ha).
  erewrite bind_ok by exact W. cbv beta.
  destruct (write_result fb v =? -1).
  - exists w1. auto.
  - unfold rtrim.
    pose proof (rtrim_scan_le buf3 (S (strlen buf3))).
    erewrite bind_ok; cycle 1.
    { apply store_ok. lia. }
    eexists. split; [reflexivity|]. simpl. auto.
Qed.

(** The same run when the brightness file cannot be opened for writing. *)
Lemma do_brightness_unwritable (w : world) (delta : Z) (sm sb : string) (br : Z) :
  sysfs_text w MAX_BRIGHTNESS_PATH = Some sm ->
  sysfs_text w BRIGHTNESS_PATH = Some sb ->
  sscanf_d sb = Some br ->
  (files w !! BRIGHTNESS_PATH ≫= fun f => if can_open_wr f then Some f else None) = None ->
  do_brightness delta w
  = Ok (1, set_stderr w (stderr w ++ ["write_sysfs failed (open)"])).
Proof.
  intros Hm Hb Hp Hc. unfold do_brightness.
  two_reads w sm sb Hm Hb.
  rewrite Hp.
  destruct (snprintf_d buf2 512 _) as [n3 buf3].
  erewrite bind_ok by (apply write_sysfs_closed; exact Hc).
  reflexivity.
Qed.

(** The run when the current value does not parse. *)
Lemma do_brightness_unparsed (w : world) (delta : Z) (sm sb : string) :
  sysfs_text w MAX_BRIGHTNESS_PATH = Some sm ->
  sysfs_text w BRIGHTNESS_PATH = Some sb ->
  sscanf_d sb = None ->
  do_brightness delta w
  = Ok (1, set_stderr w (stderr w ++ ["invalid brightness from sysfs
"])).
Proof.
  intros Hm Hb Hp. unfold do_brightness.
  two_reads w sm sb Hm Hb.
  rewrite Hp. reflexivity.
Qed.

(** The run when the max-brightness file cannot be opened. *)
Lemma do_brightness_max_closed (w : world) (delta : Z) :
  (files w !! MAX_BRIGHTNESS_PATH ≫= fun f => if can_open_rd f then Some f else None) = None ->
  do_brightness delta w
  = Ok (1, set_stderr w (stderr w ++ ["read_sysfs failed (open)"])).
Proof.
  intros Hc. unfold do_brightness, read_sysfs.
  erewrite bind_ok; cycle 1.
  { erewrite bind_ok; cycle 1.
    { unfold sys_open. destruct (files w !! MAX_BRIGHTNESS_PATH) as [f|]; simpl in Hc.
      - destruct (can_open_rd f); [discriminate | reflexivity].
      - reflexivity. }
    reflexivity. }
  reflexivity.
Qed.

(** ** The dispatcher on the brightness path *)

Lemma main_brightness (prog action darg : string) (delta : Z) (w : world) :
  first_char action = "b"%char -> sscanf_d darg = Some delta ->
  main [prog; action; darg] w = do_brightness delta w.
Proof.
  intros Ha Hd. unfold main. simpl. rewrite Hd, Ha. reflexivity.
Qed.

(** ** Brightness: the ceiling *)

(** C3, as amended: when the max-brightness file is read but its text does
    not parse as an integer, [do_brightness] takes 2147483647 as the ceiling
    and goes on to write the new value; that ceiling never lowers it. *)
Theorem unparseable_max_is_int_max (w : world) (delta : Z) (sm sb : string) (br : Z)
        (fb : sysfs_file) :
  sysfs_text w MAX_BRIGHTNESS_PATH = Some sm ->
  sscanf_d sm = None ->
  sysfs_text w BRIGHTNESS_PATH = Some sb ->
  sscanf_d sb = Some br ->
  files w !! BRIGHTNESS_PATH = Some fb -> can_open_wr fb = true ->
  let v := clamp_brightness (wrap_int (br + delta)) 2147483647 in
  v = Z.max 0 (wrap_int (br + delta))
  /\ exists w',
       do_brightness delta w = Ok ((if write_result fb v =? -1 then 1 else 0), w')
       /\ written w' = written w ++ [{| wr_path := BRIGHTNESS_PATH; wr_data := fmt_d v;
                                        wr_ret := write_result fb v |}].
Proof.
  intros Hm Hu Hb Hp Hf Ho v. split.
  - unfold v, clamp_brightness.
    assert (wrap_int (br + delta) <= 2147483647).
    { unfold wrap_int. pose proof (Z.mod_pos_bound (br + delta + 2 ^ 31) (2 ^ 32)). lia. }
    destruct (Z.ltb_spec (wrap_int (br + delta)) 0); [lia|].
    destruct (Z.gtb_spec (wrap_int (br + delta)) 2147483647); lia.
  - destruct (do_brightness_parsed w delta sm sb br fb Hm Hb Hp Hf Ho) as (w' & R & W & _).
    rewrite Hu in R, W. simpl in R, W. exists w'. split; assumption.
Qed.

Lemma unparseable_max_is_int_max_witness :
  exists w',
    do_brightness 100 (laptop "n/a" "200") = Ok (0, w')
    /\ written w' = [{| wr_path := BRIGHTNESS_PATH; wr_data := "300"; wr_ret := 3 |}].
Proof.
  destruct (unparseable_max_is_int_max (laptop "n/a" "200") 100 "n/a" "200" 200
              (plain_file "200")) as (_ & w' & R & W);
    [reflexivity | reflexivity | reflexivity | reflexivity | reflexivity | reflexivity |].
  exists w'. split; [exact R | exact W].
Defined.

(** C3, as stated, fails: a max-brightness file that cannot be opened makes
    [do_brightness] return 1 at once; no ceiling is substituted and nothing
    is written. *)
Lemma unopenable_max_fails :
  let w := machine None (Some (plain_file "200")) (desktop_audio [] []) in
  do_brightness 100 w = Ok (1, set_stderr w ["read_sysfs failed (open)"])
  /\ written (set_stderr w ["read_sysfs failed (open)"]) = [].
Proof. split; vm_compute; reflexivity. Qed.

(** ** Brightness: the clamp *)

Lemma clamp_brightness_spec (x max_br : Z) :
  0 <= max_br -> clamp_brightness x max_br = Z.max 0 (Z.min x max_br).
Proof.
  intros H. unfold clamp_brightness.
  destruct (Z.ltb_spec x 0); [lia|].
  destruct (Z.gtb_spec x max_br); lia.
Qed.

(** C4, as amended: for a current value [br] and a maximum [max_br >= 0]
    read from the files, the text handed to write(2) is the decimal form of
    the [int] sum of [br] and [delta] clamped to [0, max_br], so it lies in
    that interval, and it reads back as that value; when [br + delta] fits a signed 32-bit integer this is
    the clamp of [br + delta] itself.  From 0 a negative delta gives 0; from
    [max_br] a positive delta gives [max_br] as long as [max_br + delta]
    fits. *)
Theorem written_brightness_is_clamped (w : world) (delta : Z) (sm sb : string)
        (max_br br : Z) (fb : sysfs_file) :
  sysfs_text w MAX_BRIGHTNESS_PATH = Some sm -> sscanf_d sm = Some max_br ->
  sysfs_text w BRIGHTNESS_PATH = Some sb -> sscanf_d sb = Some br ->
  files w !! BRIGHTNESS_PATH = Some fb -> can_open_wr fb = true ->
  INT_MIN <= delta <= INT_MAX ->
  0 <= max_br ->
  let v := Z.max 0 (Z.min (wrap_int (br + delta)) max_br) in
  (exists w',
     do_brightness delta w = Ok ((if write_result fb v =? -1 then 1 else 0), w')
     /\ written w' = written w ++ [{| wr_path := BRIGHTNESS_PATH; wr_data := fmt_d v;
                                      wr_ret := write_result fb v |}])
  /\ 0 <= v <= max_br
  /\ sscanf_d (fmt_d v) = Some v
  /\ (INT_MIN <= br + delta <= INT_MAX -> v = Z.max 0 (Z.min (br + delta) max_br))
  /\ (br = 0 -> delta < 0 -> v = 0)
  /\ (br = max_br -> 0 < delta -> max_br + delta <= INT_MAX -> v = max_br).
Proof.
  intros Hm Hpm Hb Hp Hf Ho Hd Hmax v. split; [|split; [unfold v; lia|]].
  - destruct (do_brightness_parsed w delta sm sb br fb Hm Hb Hp Hf Ho) as (w' & R & W & _).
    rewrite Hpm in R, W. simpl in R, W.
    rewrite (clamp_brightness_spec _ _ Hmax) in R, W.
    exists w'. split; assumption.
  - split; [|split; [|split]].
    + apply sscanf_d_fmt_d. pose proof (sscanf_d_range _ _ Hpm).
      unfold v, INT_MIN, INT_MAX in *. lia.
    + intros Hfit. unfold v. now rewrite (wrap_int_id _ Hfit).
    + intros -> Hneg. unfold v. rewrite wrap_int_id by lia. lia.
    + intros -> Hpos Hfit. unfold v. rewrite wrap_int_id by (unfold INT_MIN in *; lia). lia.
Qed.

Lemma written_brightness_is_clamped_witness :
  exists w',
    do_brightness 100 (laptop "255" "200") = Ok (0, w')
    /\ written w' = [{| wr_path := BRIGHTNESS_PATH; wr_data := "255"; wr_ret := 3 |}].
Proof.
  destruct (written_brightness_is_clamped (laptop "255" "200") 100 "255" "200" 255 200
              (plain_file "200")) as ((w' & R & W) & _);
    [reflexivity | reflexivity | reflexivity | reflexivity | reflexivity | reflexivity
    | unfold INT_MIN, INT_MAX; lia | lia |].
  exists w'. split; [exact R | exact W].
Defined.

(** C4, as stated, fails: with max 255, current 255 and delta 2147483647 the
    [int] sum is negative and the program writes "0", where the claim has
    the result stay at max, 255 = clamp(current + delta, 0, max). *)
Lemma overflowing_delta_writes_zero :
  let w := laptop "255" "255" in
  (written <$> state_of (do_brightness 2147483647 w))
  = Some [{| wr_path := BRIGHTNESS_PATH; wr_data := "0"; wr_ret := 1 |}]
  /\ Z.max 0 (Z.min (255 + 2147483647) 255) = 255
  /\ fmt_d 255 <> "0".
Proof.
  split; [vm_compute; reflexivity|]. split; [reflexivity|].
  apply String.eqb_neq. vm_compute. reflexivity.
Qed.

(** ** Brightness: failures *)

(** C5 on the code: a write(2) that takes one byte of "255" leaves
    [write_sysfs] returning 1, and the invocation prints the value and exits
    with 0, after the diagnostic of [write_sysfs]. *)
Theorem short_write_exits_zero :
  let br_file := {| can_open_rd := true; on_read := Some "200";
                    can_open_wr := true; on_write := Some 1 |} in
  let w := machine (Some (plain_file "255")) (Some br_file) (desktop_audio [] []) in
  exists w',
    main ["sltpwmt"; "b"; "100"] w = Ok (0, w')
    /\ written w' = [{| wr_path := BRIGHTNESS_PATH; wr_data := "255"; wr_ret := 1 |}]
    /\ stderr w' = ["write_sysfs failed (write)"]
    /\ stdout w' = "Brightness: 255".
Proof.
  eexists. split; [vm_compute; reflexivity|]. repeat split.
Qed.

(** What [write_sysfs] does report to [do_brightness]: a failed open and a
    write(2) returning -1 both end the invocation with 1. *)
Lemma failed_write_exits_one (w : world) (delta : Z) (sm sb : string) (br : Z) :
  sysfs_text w MAX_BRIGHTNESS_PATH = Some sm ->
  sysfs_text w BRIGHTNESS_PATH = Some sb ->
  sscanf_d sb = Some br ->
  (forall fb, files w !! BRIGHTNESS_PATH = Some fb ->
              can_open_wr fb = false \/ on_write fb = None) ->
  result_of (do_brightness delta w) = Some 1.
Proof.
  intros Hm Hb Hp Hw.
  destruct (files w !! BRIGHTNESS_PATH) as [fb|] eqn:Hf.
  - destruct (can_open_wr fb) eqn:Ho.
    + destruct (Hw fb eq_refl) as [?|Hn]; [congruence|].
      destruct (do_brightness_parsed w delta sm sb br fb Hm Hb Hp Hf Ho) as (w' & R & _).
      rewrite R. unfold write_result. rewrite Hn. reflexivity.
    + rewrite (do_brightness_unwritable w delta sm sb br Hm Hb Hp); [reflexivity|].
      rewrite Hf. simpl. now rewrite Ho.
  - rewrite (do_brightness_unwritable w delta sm sb br Hm Hb Hp); [reflexivity|].
    now rewrite Hf.
Qed.

(** C6: when the text of the current-brightness file does not parse, the
    invocation ends with 1 and no write(2) was made; the files are as
    before.  The max-brightness file either cannot be opened or is read. *)
Theorem unparseable_brightness_fails (w : world) (delta : Z) (sb prog darg : string) :
  read_fails w MAX_BRIGHTNESS_PATH = false ->
  sysfs_text w BRIGHTNESS_PATH = Some sb ->
  sscanf_d sb = None ->
  sscanf_d darg = Some delta ->
  exists w',
    do_brightness delta w = Ok (1, w')
    /\ main [prog; "b"; darg] w = Ok (1, w')
    /\ written w' = written w
    /\ files w' = files w.
Proof.
  intros Hr Hb Hp Hd.
  rewrite (main_brightness prog "b" darg delta w eq_refl Hd).
  destruct (sysfs_text w MAX_BRIGHTNESS_PATH) as [sm|] eqn:Hm.
  - rewrite (do_brightness_unparsed w delta sm sb Hm Hb Hp).
    eexists. repeat split.
  - rewrite (do_brightness_max_closed w delta).
    + eexists. repeat split.
    + unfold sysfs_text in Hm. unfold read_fails in Hr.
      destruct (files w !! MAX_BRIGHTNESS_PATH) as [f|]; simpl in *; [|reflexivity].
      destruct (can_open_rd f); [|reflexivity].
      destruct (on_read f); simpl in *; discriminate.
Qed.

Lemma unparseable_brightness_fails_witness :
  exists w',
    do_brightness 5 (laptop "255" "bright") = Ok (1, w')
    /\ main ["sltpwmt"; "b"; "5"] (laptop "255" "bright") = Ok (1, w')
    /\ written w' = []
    /\ files w' = files (laptop "255" "bright").
Proof.
  apply (unparseable_brightness_fails (laptop "255" "bright") 5 "bright" "sltpwmt" "5");
    reflexivity.
Defined.

(** ** The terminator store of read_sysfs *)

(** C10 on the code: when the file opens and read(2) returns -1, the store
    [buf[rdlen] = 0] is made at index -1 of the 512-byte buffer. *)
Theorem failed_read_stores_at_minus_one :
  let f := {| can_open_rd := true; on_read := None;
              can_open_wr := true; on_write := Some 4096 |} in
  let w := machine (Some f) (Some (plain_file "200")) (desktop_audio [] []) in
  read_sysfs MAX_BRIGHTNESS_PATH (replicate 512 NUL) 512 w = Fault (OutOfBounds (-1) 512)
  /\ do_brightness 1 w = Fault (OutOfBounds (-1) 512).
Proof. split; vm_compute; reflexivity. Qed.

(** On the other paths the store is inside the buffer: a failed open makes
    no store, a successful read stores at [rdlen <= buflen - 1]. *)
Lemma successful_read_stores_in_bounds (w : world) (path s : string) (buf : list ascii) :
  sysfs_text w path = Some s -> length buf = 512%nat ->
  exists rdlen buf',
    read_sysfs path buf 512 w = Ok ((rdlen, buf'), w) /\ 0 <= rdlen < 512.
Proof.
  intros Ht Hl.
  destruct (sysfs_text_read w path s buf Ht Hl) as (n & buf' & R & Hn & _).
  exists n, buf'. split; assumption.
Qed.

(** ** Volume: snap to normal, then clamp *)

Lemma new_volume_cases (m arg : Z) :
  let v := wrap_int (wrap_int m + arg) in
  new_volume m arg
  = if (64225 <? v) && (v <? 66846) then 65536 else Z.max 0 (Z.min v 65536).
Proof.
  intros v. unfold new_volume. fold v.
  change (wrap_int PA_VOLUME_NORM) with 65536.
  change (wrap_int PA_VOLUME_MUTED) with 0.
  change (Z.quot (65536 * 98) 100) with 64225.
  change (Z.quot (65536 * 102) 100) with 66846.
  unfold PA_CLAMP_UNLIKELY.
  destruct (Z.gtb_spec v 64225), (Z.ltb_spec v 66846), (Z.ltb_spec 64225 v);
    cbn [andb]; try reflexivity; try lia;
    destruct (Z.gtb_spec v 65536), (Z.ltb_spec v 0); lia.
Qed.

Lemma new_volume_range (m arg : Z) : 0 <= new_volume m arg <= PA_VOLUME_NORM.
Proof.
  rewrite new_volume_cases. unfold PA_VOLUME_NORM.
  destruct ((64225 <? _) && (_ <? 66846)); lia.
Qed.

(** The bounds the code compares with are the truncated 64225 and 66846,
    strictly: 64225 itself is left as it is, 64226 is the first value that
    snaps. *)
Lemma snap_band_edges :
  new_volume 64225 0 = 64225 /\ new_volume 64226 0 = 65536
  /\ new_volume 66845 0 = 65536 /\ new_volume 66846 0 = 65536.
Proof. repeat split. Qed.

Lemma fold_max_range (l : list Z) (m : Z) :
  0 <= m <= PA_VOLUME_MAX ->
  forallb (fun v => v <=? PA_VOLUME_MAX) l = true ->
  0 <= fold_left (fun m v => if v >? m then v else m) l m <= PA_VOLUME_MAX.
Proof.
  revert m. induction l as [|x l IH]; intros m Hm Hall; simpl in *; [exact Hm|].
  apply andb_prop in Hall. destruct Hall as [Hx Hl]. apply Z.leb_le in Hx.
  apply IH; [|exact Hl]. destruct (Z.gtb_spec x m); lia.
Qed.

Lemma pa_cvolume_max_range (a : pa_cvolume) : 0 <= pa_cvolume_max a <= PA_VOLUME_MAX.
Proof.
  unfold pa_cvolume_max. destruct (pa_cvolume_valid a) eqn:Hv.
  - unfold pa_cvolume_valid in Hv. apply andb_prop in Hv. destruct Hv as [_ Hall].
    apply fold_max_range; [unfold PA_VOLUME_MUTED, PA_VOLUME_MAX; lia | exact Hall].
  - unfold PA_VOLUME_MUTED, PA_VOLUME_MAX. lia.
Qed.

(** C1, as amended: in the volume operation the request carries the
    channels scaled to a target [t]; with [v] the 32-bit signed sum of the
    loudest channel and the delta, which is their sum whenever that fits,
    [t] is exactly normal when [v] lies within 98% and 102% of normal,
    bounds included, and otherwise [v] clamped to [0, normal]. *)
Theorem volume_snaps_then_clamps (st : pulse) (i : pa_sink_info) :
  pulse_op st = "v"%char ->
  1 <= channels (si_volume i) ->
  let v := wrap_int (pa_cvolume_max (si_volume i) + pulse_arg st) in
  exists t st',
    do_pulse_vs (Some i) 0 st = Ok (tt, st')
    /\ requests st'
       = requests st ++ [set_sink_volume_by_index (si_index i)
                           (pa_cvolume_scale (si_volume i) t) cb_do_pulse_success]
    /\ stdout (env st') = (stdout (env st) +:+ "Speakers " +:+ pa_volume_snprint t)%string
    /\ loop_quit st' = loop_quit st
    /\ PA_VOLUME_MUTED <= t <= PA_VOLUME_NORM
    /\ (98 * PA_VOLUME_NORM <= 100 * v <= 102 * PA_VOLUME_NORM -> t = PA_VOLUME_NORM)
    /\ (~ (98 * PA_VOLUME_NORM <= 100 * v <= 102 * PA_VOLUME_NORM) ->
        t = Z.max PA_VOLUME_MUTED (Z.min v PA_VOLUME_NORM))
    /\ (INT_MIN <= pa_cvolume_max (si_volume i) + pulse_arg st <= INT_MAX ->
        v = pa_cvolume_max (si_volume i) + pulse_arg st).
Proof.
  intros Hop Hch v.
  exists (new_volume (pa_cvolume_max (si_volume i)) (pulse_arg st)).
  pose proof (new_volume_range (pa_cvolume_max (si_volume i)) (pulse_arg st)) as Hr.
  pose proof (new_volume_cases (pa_cvolume_max (si_volume i)) (pulse_arg st)) as Hc.
  rewrite (wrap_int_id (pa_cvolume_max (si_volume i))) in Hc
    by (pose proof (pa_cvolume_max_range (si_volume i));
        unfold INT_MIN, INT_MAX, PA_VOLUME_MAX in *; lia).
  fold v in Hc. cbv zeta in Hc.
  eexists. split.
  { unfold do_pulse_vs. simpl. rewrite Hop. simpl.
    replace (channels (si_volume i) <? 1) with false by (symmetry; apply Z.ltb_ge; lia).
    unfold to_uint32. rewrite Z.mod_small by (unfold PA_VOLUME_NORM in Hr; lia).
    reflexivity. }
  simpl. split; [reflexivity|]. split; [reflexivity|]. split; [reflexivity|].
  unfold PA_VOLUME_MUTED, PA_VOLUME_NORM in *. split; [lia|].
  rewrite Hc. split; [|split]; intros Hb.
  - replace (64225 <? v) with true by (symmetry; apply Z.ltb_lt; lia).
    destruct (Z.ltb_spec v 66846); simpl; lia.
  - destruct (Z.ltb_spec 64225 v), (Z.ltb_spec v 66846); simpl; lia.
  - unfold v. now apply wrap_int_id.
Qed.

Lemma volume_snaps_then_clamps_witness :
  exists t st',
    do_pulse_vs (Some (sink_info_of (speakers false (stereo 32000 64000)))) 0
                (awaiting_device "v" 1500 (laptop "255" "200")) = Ok (tt, st')
    /\ requests st'
       = requests (awaiting_device "v" 1500 (laptop "255" "200"))
         ++ [set_sink_volume_by_index 0 (pa_cvolume_scale (stereo 32000 64000) t)
               cb_do_pulse_success]
    /\ t = PA_VOLUME_NORM.
Proof.
  destruct (volume_snaps_then_clamps (awaiting_device "v" 1500 (laptop "255" "200"))
              (sink_info_of (speakers false (stereo 32000 64000))))
    as (t & st' & R & Q & _ & _ & _ & Hin & _ & _);
    [reflexivity | simpl; lia |].
  exists t, st'. split; [exact R|]. split; [exact Q|].
  apply Hin. vm_compute. split; discriminate.
Defined.

(** C1, as stated, fails: with both channels at normal and delta 2147483647
    the [int] sum is negative, so the volume is set to silence, where the
    sum of the two, far above the band, clamps to normal. *)
Lemma overflowing_volume_delta_silences :
  let w := machine None None
             (desktop_audio [speakers false (stereo 65536 65536)] [mic false]) in
  new_volume 65536 2147483647 = 0
  /\ Z.max PA_VOLUME_MUTED (Z.min (65536 + 2147483647) PA_VOLUME_NORM) = PA_VOLUME_NORM
  /\ exists w',
       main ["sltpwmt"; "v"; "2147483647"] w = Ok (0, w')
       /\ map dev_volume (sinks (audio w')) = [stereo 0 0]
       /\ stdout w' = "Speakers   0%".
Proof.
  split; [reflexivity|]. split; [reflexivity|].
  eexists. split; [vm_compute; reflexivity|]. split; reflexivity.
Qed.

(** ** The callbacks and the main loop *)

Lemma pa_mainloop_run_quit (fuel served : nat) (st : pulse) (e : Z) :
  loop_quit st = Some e -> pa_mainloop_run fuel served st = Ok (e, st).
Proof. intros H. destruct fuel; simpl; now rewrite H. Qed.

Lemma pulse_quit_set (st : pulse) (e : Z) :
  pulse_mapi st = true -> pulse_quit e st = Ok (tt, set_loop_quit st (Some e)).
Proof. intros H. unfold pulse_quit. now rewrite H. Qed.

(** C2, as amended: in both device-info callbacks a negative end-of-list
    code requests shutdown with status 1; a positive one makes the callback
    return with nothing done: no shutdown is requested, no request is sent,
    nothing is printed, whether or not a record came before. *)
Theorem end_of_list_handling (st : pulse) (eol : Z)
        (i : option pa_sink_info) (j : option pa_source_info) :
  pulse_mapi st = true ->
  eol <> 0 ->
  exists st1 st2,
    do_pulse_vs i eol st = Ok (tt, st1)
    /\ do_pulse_m j eol st = Ok (tt, st2)
    /\ requests st1 = requests st /\ requests st2 = requests st
    /\ (eol < 0 -> loop_quit st1 = Some 1 /\ loop_quit st2 = Some 1)
    /\ (0 < eol -> st1 = st /\ st2 = st).
Proof.
  intros Hm Hne. unfold do_pulse_vs, do_pulse_m.
  destruct (Z.ltb_spec eol 0) as [Hneg|Hpos].
  - unfold bind, in_env, eprint, pulse_quit. simpl. rewrite Hm.
    eexists _, _. repeat split; try reflexivity; lia.
  - replace (eol =? 0) with false by (symmetry; apply Z.eqb_neq; lia). simpl.
    exists st, st. repeat split; try reflexivity; lia.
Qed.

Lemma end_of_list_handling_witness :
  exists st1 st2,
    do_pulse_vs None (-1) (awaiting_device "s" (-1) (laptop "255" "200")) = Ok (tt, st1)
    /\ do_pulse_m None (-1) (awaiting_device "s" (-1) (laptop "255" "200")) = Ok (tt, st2)
    /\ loop_quit st1 = Some 1 /\ loop_quit st2 = Some 1.
Proof.
  destruct (end_of_list_handling (awaiting_device "s" (-1) (laptop "255" "200")) (-1)
              None None) as (st1 & st2 & R1 & R2 & _ & _ & Hneg & _);
    [reflexivity | lia |].
  exists st1, st2. split; [exact R1|]. split; [exact R2|]. apply Hneg. lia.
Defined.

(** C2, as stated, fails: on end-of-list code 1 with no record delivered
    before, neither callback requests a shutdown; the loop is left with
    nothing to dispatch and no exit status. *)
Lemma positive_eol_requests_no_shutdown :
  let st := awaiting_device "v" 1000 (machine None None (desktop_audio [] [])) in
  let st' := awaiting_device "m" (-1) (machine None None (desktop_audio [] [])) in
  do_pulse_vs None 1 st = Ok (tt, st) /\ loop_quit st = None
  /\ pa_mainloop_run 8 2 st = Fault Blocked
  /\ do_pulse_m None 1 st' = Ok (tt, st') /\ loop_quit st' = None
  /\ pa_mainloop_run 8 2 st' = Fault Blocked.
Proof. repeat split. Qed.

(** C7: whatever success flag comes with the completion, the completion
    callback sets the loop's quit flag with retval 0 and changes nothing
    else; the loop then returns 0. *)
Theorem completion_quits_with_success (st : pulse) (success : Z) :
  pulse_mapi st = true ->
  do_pulse_success success st = Ok (tt, set_loop_quit st (Some 0))
  /\ fire cb_do_pulse_success (r_success success) st = Ok (tt, set_loop_quit st (Some 0))
  /\ forall fuel served,
       pa_mainloop_run fuel served (set_loop_quit st (Some 0))
       = Ok (0, set_loop_quit st (Some 0)).
Proof.
  intros Hm. split; [|split].
  - apply pulse_quit_set, Hm.
  - apply pulse_quit_set, Hm.
  - intros fuel served. now apply pa_mainloop_run_quit.
Qed.

Lemma completion_quits_with_success_witness :
  do_pulse_success 0 (awaiting_device "s" (-1) (laptop "255" "200"))
  = Ok (tt, set_loop_quit (awaiting_device "s" (-1) (laptop "255" "200")) (Some 0)).
Proof.
  apply (completion_quits_with_success (awaiting_device "s" (-1) (laptop "255" "200")) 0).
  reflexivity.
Defined.

(** Every mute-set or volume-set request the device callbacks send names
    [do_pulse_success] as its completion callback. *)
Lemma mutations_complete_in_do_pulse_success (st st' : pulse)
      (i : option pa_sink_info) (j : option pa_source_info) (eol : Z) :
  do_pulse_vs i eol st = Ok (tt, st') \/ do_pulse_m j eol st = Ok (tt, st') ->
  requests st' = requests st
  \/ exists r, requests st' = requests st ++ [r]
               /\ is_mutation r = true /\ request_cb r = cb_do_pulse_success.
Proof.
  unfold do_pulse_vs, do_pulse_m.
  destruct (eol <? 0).
  { unfold bind, in_env, eprint, pulse_quit. simpl.
    destruct (pulse_mapi st); intros [H|H]; injection H as <-; now left. }
  destruct (eol =? 0); simpl; [|intros [H|H]; injection H as <-; now left].
  intros [H|H].
  - destruct i as [i|]; [|discriminate].
    destruct (Ascii.eqb (pulse_op st) "s").
    { injection H as <-. right. eexists. simpl. repeat split. }
    destruct (Ascii.eqb (pulse_op st) "v").
    + destruct (channels (si_volume i) <? 1).
      * unfold pulse_quit in H. destruct (pulse_mapi st); injection H as <-; now left.
      * injection H as <-. right. eexists. simpl. repeat split.
    + unfold bind, in_env, eprint, pulse_quit in H. simpl in H.
      destruct (pulse_mapi st); injection H as <-; now left.
  - destruct j as [j|]; [|discriminate].
    injection H as <-. right. eexists. simpl. repeat split.
Qed.

(** C8: in the volume operation a sink with no channel makes the callback
    request shutdown with status 0 and return; no request is sent, and the
    loop returns 0. *)
Theorem zero_channels_quits (st : pulse) (i : pa_sink_info) :
  pulse_op st = "v"%char ->
  pulse_mapi st = true ->
  channels (si_volume i) < 1 ->
  exists st',
    do_pulse_vs (Some i) 0 st = Ok (tt, st')
    /\ loop_quit st' = Some 0
    /\ requests st' = requests st
    /\ stdout (env st') = stdout (env st)
    /\ forall fuel served, pa_mainloop_run fuel served st' = Ok (0, st').
Proof.
  intros Hop Hm Hch. exists (set_loop_quit st (Some 0)). split.
  - unfold do_pulse_vs. simpl. rewrite Hop. simpl.
    replace (channels (si_volume i) <? 1) with true by (symmetry; apply Z.ltb_lt; lia).
    apply pulse_quit_set, Hm.
  - repeat split. intros fuel served. now apply pa_mainloop_run_quit.
Qed.

Lemma zero_channels_quits_witness :
  exists st',
    do_pulse_vs (Some {| si_index := 0; si_mute := 0;
                         si_volume := {| channels := 0; values := [] |} |}) 0
                (awaiting_device "v" 1000 (laptop "255" "200")) = Ok (tt, st')
    /\ loop_quit st' = Some 0
    /\ requests st' = requests (awaiting_device "v" 1000 (laptop "255" "200")).
Proof.
  destruct (zero_channels_quits (awaiting_device "v" 1000 (laptop "255" "200"))
              {| si_index := 0; si_mute := 0;
                 si_volume := {| channels := 0; values := [] |} |})
    as (st' & R & Q & N & _); [reflexivity | reflexivity | simpl; lia |].
  exists st'. split; [exact R|]. split; [exact Q | exact N].
Defined.

(** ** Mute toggling through the server *)

Lemma find_device_index (name : string) (l : list pa_device) (d : pa_device) :
  find_device name l = Some d -> has_index (dev_index d) l = true.
Proof.
  unfold find_device, has_index. induction l as [|x l IH]; simpl; [discriminate|].
  destruct (String.eqb (dev_name x) name).
  - intros [= ->]. now rewrite Z.eqb_refl.
  - intros H. rewrite (IH H). apply orb_true_r.
Qed.

Lemma find_device_set_mute (name : string) (l : list pa_device) (d : pa_device) (m : Z) :
  find_device name l = Some d ->
  find_device name (set_mute (dev_index d) m l) = Some (with_muted d (negb (m =? 0))).
Proof.
  unfold find_device, set_mute. induction l as [|x l IH]; simpl; [discriminate|].
  destruct (String.eqb (dev_name x) name) eqn:Hx.
  - intros [= ->]. rewrite Z.eqb_refl. simpl. now rewrite Hx.
  - intros H. destruct (dev_index x =? dev_index d); simpl; rewrite Hx; now apply IH.
Qed.

Lemma session_up_inv (a : pa_env) :
  session_up a = true ->
  mainloop_new_ok a = true /\ signal_init_ok a = true /\ context_new_ok a = true
  /\ connect_ok a = true /\ becomes_ready a = true.
Proof.
  unfold session_up. intros H.
  repeat (apply andb_prop in H; destruct H as [H ?]). auto.
Qed.

Lemma toggle_sink_session (w : world) (arg : Z) (d : pa_device) :
  session_up (audio w) = true ->
  default_device "s" (audio w) = Some d ->
  exists w',
    pulse_session "s" arg w = Ok (0, w')
    /\ session_up (audio w') = true
    /\ default_device "s" (audio w') = Some (with_muted d (negb (dev_muted d)))
    /\ files w' = files w /\ written w' = written w.
Proof.
  intros Hup Hd. destruct (session_up_inv _ Hup) as (H1 & H2 & H3 & H4 & H5).
  unfold default_device in Hd. simpl in Hd.
  pose proof (find_device_index _ _ _ Hd) as Hidx.
  unfold pulse_session. rewrite H1, H2, H3, H4, H5. simpl.
  rewrite Hd. simpl. rewrite Hidx. simpl.
  eexists. split; [reflexivity|]. simpl. split; [exact Hup|]. split; [|split; reflexivity].
  unfold default_device. simpl.
  rewrite (find_device_set_mute _ _ _ _ Hd).
  destruct (dev_muted d); reflexivity.
Qed.

Lemma toggle_source_session (w : world) (arg : Z) (d : pa_device) :
  session_up (audio w) = true ->
  default_device "m" (audio w) = Some d ->
  exists w',
    pulse_session "m" arg w = Ok (0, w')
    /\ session_up (audio w') = true
    /\ default_device "m" (audio w') = Some (with_muted d (negb (dev_muted d)))
    /\ files w' = files w /\ written w' = written w.
Proof.
  intros Hup Hd. destruct (session_up_inv _ Hup) as (H1 & H2 & H3 & H4 & H5).
  unfold default_device in Hd. simpl in Hd.
  pose proof (find_device_index _ _ _ Hd) as Hidx.
  unfold pulse_session. rewrite H1, H2, H3, H4, H5. simpl.
  rewrite Hd. simpl. rewrite Hidx. simpl.
  eexists. split; [reflexivity|]. simpl. split; [exact Hup|]. split; [|split; reflexivity].
  unfold default_device. simpl.
  rewrite (find_device_set_mute _ _ _ _ Hd).
  destruct (dev_muted d); reflexivity.
Qed.

Lemma toggle_session (w : world) (op : ascii) (arg : Z) (d : pa_device) :
  op = "s"%char \/ op = "m"%char ->
  session_up (audio w) = true ->
  default_device op (audio w) = Some d ->
  exists w',
    pulse_session op arg w = Ok (0, w')
    /\ session_up (audio w') = true
    /\ default_device op (audio w') = Some (with_muted d (negb (dev_muted d))).
Proof.
  intros [-> | ->] Hup Hd.
  - destruct (toggle_sink_session w arg d Hup Hd) as (w' & R & U & D & _). eauto.
  - destruct (toggle_source_session w arg d Hup Hd) as (w' & R & U & D & _). eauto.
Qed.

Lemma main_toggle (prog : string) (op : ascii) (w : world) :
  op = "s"%char \/ op = "m"%char ->
  main [prog; String op ""] w = pulse_session op (-1) w.
Proof. intros [-> | ->]; reflexivity. Qed.

(** C9: with the default sink (for 's') or source (for 'm') in mute state
    [b], one invocation of the toggle exits 0 and leaves the device in state
    [negb b]; a second invocation, started from there, exits 0 and leaves it
    in state [b] again. *)
Theorem toggle_twice_restores_mute (w : world) (op : ascii) (prog : string) (b : bool) :
  op = "s"%char \/ op = "m"%char ->
  session_up (audio w) = true ->
  default_muted op w = Some b ->
  exists w1 w2,
    main [prog; String op ""] w = Ok (0, w1)
    /\ default_muted op w1 = Some (negb b)
    /\ main [prog; String op ""] w1 = Ok (0, w2)
    /\ default_muted op w2 = Some b.
Proof.
  intros Hop Hup Hb. unfold default_muted in *.
  destruct (default_device op (audio w)) as [d|] eqn:Hd; [|discriminate].
  injection Hb as <-.
  destruct (toggle_session w op (-1) d Hop Hup Hd) as (w1 & R1 & U1 & D1).
  destruct (toggle_session w1 op (-1) _ Hop U1 D1) as (w2 & R2 & _ & D2).
  exists w1, w2. rewrite !main_toggle by exact Hop.
  rewrite D1, D2. simpl. rewrite negb_involutive. auto.
Qed.

Lemma toggle_twice_restores_mute_witness :
  exists w1 w2,
    main ["sltpwmt"; "s"] (laptop "255" "200") = Ok (0, w1)
    /\ default_muted "s" w1 = Some true
    /\ main ["sltpwmt"; "s"] w1 = Ok (0, w2)
    /\ default_muted "s" w2 = Some false.
Proof.
  apply (toggle_twice_restores_mute (laptop "255" "200") "s" "sltpwmt" false).
  - left. reflexivity.
  - reflexivity.
  - reflexivity.
Defined.

(** ** The globals of the audio path *)

Lemma keeps_ret {A : Type} (a : A) : keeps_globals (ret a).
Proof. intros st a' st' [= _ <-]. auto. Qed.

Lemma keeps_bind {A B : Type} (m : M pulse A) (k : A -> M pulse B) :
  keeps_globals m -> (forall a, keeps_globals (k a)) -> keeps_globals (bind m k).
Proof.
  intros Hm Hk st b st' H. unfold bind in H.
  destruct (m st) as [[a s1]|f] eqn:E; [|discriminate].
  destruct (Hm _ _ _ E) as (E1 & E2 & E3). destruct (Hk a _ _ _ H) as (F1 & F2 & F3).
  rewrite F1, F2, F3. auto.
Qed.

Lemma keeps_send (r : pa_request) : keeps_globals (send r).
Proof. intros st a st' [= _ <-]. auto. Qed.

Lemma keeps_pulse_quit (e : Z) : keeps_globals (pulse_quit e).
Proof.
  intros st a st' H. unfold pulse_quit in H.
  destruct (pulse_mapi st) eqn:E; injection H as _ <-; simpl; auto.
Qed.

Lemma keeps_in_env {A : Type} (m : M world A) : keeps_globals (in_env m).
Proof.
  intros st a st' H. unfold in_env in H.
  destruct (m (env st)) as [[a' w]|f]; [|discriminate]. injection H as _ <-. auto.
Qed.

Lemma keeps_raise {A : Type} (f : fault) : keeps_globals (@raise pulse A f).
Proof. intros st a st' H. discriminate H. Qed.

Create HintDb globals.
#[local] Hint Resolve keeps_ret keeps_bind keeps_send keeps_pulse_quit keeps_in_env
  keeps_raise : globals.

Ltac keeps_here :=
  match goal with
  | H : ?m ?st = Ok (?a, ?st') |- _ =>
      refine ((_ : keeps_globals m) st a st' H); auto with globals
  end.

(** The pending operation and the loop handle are set before the loop
    starts and no callback writes them. *)
Lemma callbacks_keep_globals (cb : callback) (r : reply) : keeps_globals (fire cb r).
Proof.
  destruct cb, r; simpl; auto with globals.
  - intros st a st' H. unfold do_pulse_server_info in H.
    destruct (_ || _) in H; [keeps_here|]. destruct (Ascii.eqb _ _) in H; keeps_here.
  - unfold do_pulse_vs. destruct (eol <? 0); [auto with globals|].
    destruct (negb (eol =? 0)); [auto with globals|].
    destruct i as [i|]; [|auto with globals].
    intros st a st' H.
    destruct (Ascii.eqb _ "s") in H; [keeps_here|].
    destruct (Ascii.eqb _ "v") in H; [|keeps_here].
    destruct (_ <? 1) in H; keeps_here.
  - unfold do_pulse_m. destruct (eol <? 0); [auto with globals|].
    destruct (negb (eol =? 0)); [auto with globals|].
    destruct i as [i|]; auto with globals.
  - unfold do_pulse_success. auto with globals.
Qed.

(** ** Scenarios of the specification *)

Example brighten_past_max :
  exists w',
    main ["sltpwmt"; "b"; "100"] (laptop "255
" "200
") = Ok (0, w')
    /\ written w' = [{| wr_path := BRIGHTNESS_PATH; wr_data := "255"; wr_ret := 3 |}]
    /\ stdout w' = "Brightness: 255".
Proof. eexists. split; [vm_compute; reflexivity|]. split; reflexivity. Qed.

Example dim_below_zero :
  exists w',
    main ["sltpwmt"; "b"; "-50"] (laptop "255
" "10
") = Ok (0, w')
    /\ written w' = [{| wr_path := BRIGHTNESS_PATH; wr_data := "0"; wr_ret := 1 |}]
    /\ stdout w' = "Brightness: 0".
Proof. eexists. split; [vm_compute; reflexivity|]. split; reflexivity. Qed.

Example volume_99_to_101_percent :
  let w := machine None None
             (desktop_audio [speakers false (stereo 64881 64881)] [mic false]) in
  exists w',
    main ["sltpwmt"; "v"; "1311"] w = Ok (0, w')
    /\ map dev_volume (sinks (audio w')) = [stereo 65536 65536]
    /\ stdout w' = "Speakers 100%".
Proof. eexists. split; [vm_compute; reflexivity|]. split; reflexivity. Qed.

Example unknown_action :
  let w := laptop "255" "200" in
  main ["sltpwmt"; "x"] w = Ok (1, set_stderr w ["unknown action
"]).
Proof. vm_compute. reflexivity. Qed.

(** A sink without channels: the volume invocation exits 0 and the server
    saw no volume-set request. *)
Example zero_channel_sink_session :
  let silent := {| channels := 0; values := [] |} in
  let w := machine None None (desktop_audio [speakers false silent] [mic false]) in
  exists w',
    main ["sltpwmt"; "v"; "1000"] w = Ok (0, w')
    /\ sinks (audio w') = sinks (audio w) /\ stdout w' = "".
Proof. eexists. split; [vm_compute; reflexivity|]. split; reflexivity. Qed.

(** A default sink name the server does not know: libpulse reports the
    server's error with a negative code, and the invocation exits 1. *)
Example unknown_default_sink_session :
  let w := machine None None (desktop_audio [] [mic false]) in
  exists w',
    main ["sltpwmt"; "s"] w = Ok (1, w')
    /\ stderr w' = ["pa_context_get_sink_info_by_name failed: -1
"]
    /\ sinks (audio w') = [] /\ stdout w' = "".
Proof. eexists. split; [vm_compute; reflexivity|]. repeat split. Qed.

(** * Further properties *)

(** ** C strings in a buffer *)

Lemma c_str_take (buf : list ascii) :
  list_ascii_of_string (c_str buf) = take (strlen buf) buf.
Proof.
  unfold strlen. induction buf as [|c buf IH]; cbn [c_str]; [reflexivity|].
  destruct (Ascii.eqb c NUL); cbn; [reflexivity | now rewrite IH].
Qed.

Lemma c_str_chars_not_nul (buf : list ascii) :
  Forall (fun c => c <> NUL) (take (strlen buf) buf).
Proof.
  unfold strlen. induction buf as [|c buf IH]; cbn [c_str]; [constructor|].
  destruct (Ascii.eqb_spec c NUL); cbn; [constructor|].
  constructor; assumption.
Qed.

Lemma c_str_terminator (buf : list ascii) :
  (strlen buf < length buf)%nat -> buf !! strlen buf = Some NUL.
Proof.
  unfold strlen. induction buf as [|c buf IH]; cbn [c_str length]; [lia|].
  destruct (Ascii.eqb_spec c NUL) as [->|]; cbn; [reflexivity|].
  intros H. apply IH. lia.
Qed.

Lemma c_str_of_chars (l r : list ascii) :
  Forall (fun c => c <> NUL) l -> c_str (l ++ NUL :: r) = string_of_list_ascii l.
Proof.
  induction 1 as [|c l Hc _ IH]; cbn.
  - reflexivity.
  - destruct (Ascii.eqb_spec c NUL); [contradiction|]. now rewrite IH.
Qed.

Lemma is_trimmed_nul : is_trimmed NUL = true.
Proof. reflexivity. Qed.

(** ** rtrim *)

(** The scan stops right after the last byte that is not trimmed. *)
Lemma rtrim_scan_spec (buf : list ascii) (n : nat) :
  (n <= length buf)%nat ->
  let k := rtrim_scan buf n in
  (k <= n)%nat
  /\ Forall (fun c => is_trimmed c = true) (drop k (take n buf))
  /\ forall c, last (take k buf) = Some c -> is_trimmed c = false.
Proof.
  induction n as [|n IH]; intros Hn; cbn [rtrim_scan].
  - cbn. split; [lia|]. split; [constructor|]. rewrite take_0. discriminate.
  - destruct (lookup_lt_is_Some_2 buf n) as [ch Hch]; [lia|]. rewrite Hch.
    destruct (is_trimmed ch) eqn:Ht.
    + destruct IH as (Hk & Hd & Hl); [lia|]. split; [lia|]. split; [|exact Hl].
      rewrite (take_S_r _ _ _ Hch), drop_app_le by (rewrite length_take; lia).
      apply Forall_app. split; [exact Hd|]. repeat constructor. exact Ht.
    + split; [lia|]. split.
      * rewrite drop_ge by (rewrite length_take; lia). constructor.
      * intros c. rewrite (take_S_r _ _ _ Hch), last_snoc. intros [= <-]. exact Ht.
Qed.

(** X1: on a buffer that holds a terminated string, [rtrim] makes its store
    inside the buffer and cuts the string after its last byte that is none
    of CR, LF, space: what it keeps is a prefix, what it drops consists of
    those three bytes only. *)
Theorem rtrim_trims {St : Type} (buf : list ascii) (s : St) :
  (strlen buf < length buf)%nat ->
  exists buf' kept dropped,
    rtrim buf s = Ok (buf', s)
    /\ length buf' = length buf
    /\ list_ascii_of_string (c_str buf) = kept ++ dropped
    /\ c_str buf' = string_of_list_ascii kept
    /\ Forall (fun c => is_trimmed c = true /\ c <> NUL) dropped
    /\ forall c, last kept = Some c -> is_trimmed c = false.
Proof.
  intros Hterm. pose proof (c_str_terminator buf Hterm) as Hnul.
  unfold rtrim. cbn [rtrim_scan]. rewrite Hnul, is_trimmed_nul.
  destruct (rtrim_scan_spec buf (strlen buf)) as (Hk & Hd & Hl); [lia|].
  set (k := rtrim_scan buf (strlen buf)) in *.
  exists (<[k := NUL]> buf), (take k buf), (drop k (take (strlen buf) buf)).
  split; [apply store_ok; lia|]. split; [apply length_insert|]. split.
  { rewrite c_str_take. rewrite <- (take_drop k (take (strlen buf) buf)) at 1.
    rewrite take_take, Nat.min_l by lia. reflexivity. }
  pose proof (c_str_chars_not_nul buf) as Hnn.
  split.
  { rewrite insert_take_drop by lia. apply c_str_of_chars.
    rewrite <- (Nat.min_l k (strlen buf)), <- take_take by lia.
    now apply Forall_take. }
  split; [|exact Hl].
  apply Forall_and. split; [exact Hd|]. now apply Forall_drop.
Qed.

Lemma rtrim_trims_witness :
  exists buf' kept dropped,
    rtrim (list_ascii_of_string "42 " ++ [NUL; "x"%char]) tt = Ok (buf', tt)
    /\ length buf' = 5%nat
    /\ list_ascii_of_string "42 " = kept ++ dropped
    /\ c_str buf' = string_of_list_ascii kept.
Proof.
  destruct (@rtrim_trims unit (list_ascii_of_string "42 " ++ [NUL; "x"%char]) tt)
    as (buf' & kept & dropped & R & L & E & C & _); [cbn; lia|].
  exists buf', kept, dropped. repeat split; assumption.
Defined.

(** X2: trimming twice is trimming once. *)
Theorem rtrim_idempotent {St : Type} (buf buf' : list ascii) (s : St) :
  (strlen buf < length buf)%nat ->
  rtrim buf s = Ok (buf', s) ->
  rtrim buf' s = Ok (buf', s).
Proof.
  intros Hterm. pose proof (c_str_terminator buf Hterm) as Hnul.
  unfold rtrim at 1. cbn [rtrim_scan]. rewrite Hnul, is_trimmed_nul.
  destruct (rtrim_scan_spec buf (strlen buf)) as (Hk & Hd & Hl); [lia|].
  set (k := rtrim_scan buf (strlen buf)) in *.
  rewrite store_ok by lia. intros [= <-].
  assert (Hs : strlen (<[k := NUL]> buf) = k).
  { unfold strlen at 1. rewrite insert_take_drop by lia. rewrite c_str_of_chars.
    - rewrite <- list_ascii_length, list_ascii_of_string_of_list_ascii.
      rewrite length_take. lia.
    - pose proof (c_str_chars_not_nul buf) as Hnn.
      rewrite <- (Nat.min_l k (strlen buf)), <- take_take by lia.
      now apply Forall_take. }
  unfold rtrim. rewrite Hs. cbn [rtrim_scan].
  rewrite list_lookup_insert_eq by lia. rewrite is_trimmed_nul.
  assert (Hk' : rtrim_scan (<[k := NUL]> buf) k = k).
  { destruct k as [|j] eqn:Ek; [reflexivity|]. cbn [rtrim_scan].
    rewrite list_lookup_insert_ne by lia.
    destruct (lookup_lt_is_Some_2 buf j) as [ch Hch]; [lia|]. rewrite Hch.
    rewrite (Hl ch); [reflexivity|].
    rewrite (take_S_r _ _ _ Hch). apply last_snoc. }
  rewrite Hk'. rewrite store_ok by (rewrite length_insert; lia).
  now rewrite list_insert_insert_eq.
Qed.

Lemma rtrim_idempotent_witness :
  rtrim (list_ascii_of_string "42" ++ [NUL; NUL; "x"%char]) tt
  = Ok (list_ascii_of_string "42" ++ [NUL; NUL; "x"%char], tt).
Proof.
  apply (@rtrim_idempotent unit (list_ascii_of_string "42 " ++ [NUL; "x"%char])).
  - cbn. lia.
  - reflexivity.
Defined.

(** ** read_sysfs and write_sysfs in general *)

(** X3: for a buffer of any size [buflen >= 1], a read that succeeds stays
    inside the buffer: at most [buflen - 1] bytes of the file are copied to
    its front, the terminator follows them, the bytes behind it are left as
    they were, the count is returned and nothing is printed. *)
Theorem read_sysfs_fills_buffer (w : world) (path : string) (f : sysfs_file)
        (data : string) (buf : list ascii) (buflen : Z) :
  files w !! path = Some f -> can_open_rd f = true -> on_read f = Some data ->
  1 <= buflen < 2 ^ 63 ->
  Z.of_nat (length buf) = buflen ->
  let bytes := take (Z.to_nat (buflen - 1)) (list_ascii_of_string data) in
  let n := length bytes in
  exists buf',
    read_sysfs path buf buflen w = Ok ((Z.of_nat n, buf'), w)
    /\ 0 <= Z.of_nat n <= buflen - 1
    /\ buf' = bytes ++ NUL :: drop (S n) buf
    /\ length buf' = length buf
    /\ c_str buf' = c_str bytes.
Proof.
  intros Hf Ho Hr Hlen Hbuf bytes n. subst n. unfold read_sysfs.
  erewrite bind_ok; cycle 1.
  { unfold sys_open. rewrite Hf, Ho. reflexivity. }
  cbv beta iota.
  assert (Hb : (length bytes <= Z.to_nat (buflen - 1))%nat)
    by (unfold bytes; rewrite length_take; lia).
  erewrite bind_ok; cycle 1.
  { unfold sys_read. rewrite Hf. cbn [mbind option_bind]. rewrite Hr.
    unfold to_size_t. rewrite Z.mod_small by lia. fold bytes.
    replace (Z.of_nat (length bytes) <=? Z.of_nat (length buf)) with true
      by (symmetry; apply Z.leb_le; lia).
    reflexivity. }
  cbv beta iota.
  replace (Z.of_nat (length bytes) =? -1) with false by (symmetry; apply Z.eqb_neq; lia).
  erewrite bind_ok by reflexivity.
  erewrite bind_ok by reflexivity.
  erewrite bind_ok; cycle 1.
  { apply store_ok. rewrite blit_length; lia. }
  rewrite terminate_blit by lia.
  eexists. split; [reflexivity|]. split; [lia|]. split; [reflexivity|]. split.
  - rewrite length_app. cbn [length]. rewrite length_drop. lia.
  - apply c_str_app_nul.
Qed.

Lemma read_sysfs_fills_buffer_witness :
  exists buf',
    read_sysfs BRIGHTNESS_PATH (replicate 4 "x"%char) 4 (laptop "255" "12345")
    = Ok ((3, buf'), laptop "255" "12345")
    /\ c_str buf' = "123"%string.
Proof.
  destruct (read_sysfs_fills_buffer (laptop "255" "12345") BRIGHTNESS_PATH
              (plain_file "12345") "12345" (replicate 4 "x"%char) 4)
    as (buf' & R & _ & _ & _ & C); [reflexivity | reflexivity | reflexivity | lia
                                   | reflexivity |].
  exists buf'. split; [exact R | exact C].
Defined.

Lemma read_sysfs_unopenable (w : world) (path : string) (buf : list ascii) (buflen : Z) :
  (files w !! path ≫= fun f => if can_open_rd f then Some f else None) = None ->
  read_sysfs path buf buflen w
  = Ok ((-1, buf), set_stderr w (stderr w ++ ["read_sysfs failed (open)"])).
Proof.
  intros Hc. unfold read_sysfs.
  erewrite bind_ok; cycle 1.
  { unfold sys_open. destruct (files w !! path) as [f|]; cbn in Hc; [|reflexivity].
    destruct (can_open_rd f); [discriminate | reflexivity]. }
  reflexivity.
Qed.

Lemma read_sysfs_failed_read (w : world) (path : string) (f : sysfs_file)
      (buf : list ascii) (buflen : Z) :
  files w !! path = Some f -> can_open_rd f = true -> on_read f = None ->
  read_sysfs path buf buflen w = Fault (OutOfBounds (-1) (Z.of_nat (length buf))).
Proof.
  intros Hf Ho Hr. unfold read_sysfs.
  erewrite bind_ok; cycle 1.
  { unfold sys_open. rewrite Hf, Ho. reflexivity. }
  cbv beta iota.
  erewrite bind_ok; cycle 1.
  { unfold sys_read. rewrite Hf. cbn [mbind option_bind]. rewrite Hr. reflexivity. }
  reflexivity.
Qed.

(** X4: the two ends of [read_sysfs] that its caller can tell apart, for a
    buffer of [buflen >= 1] bytes.  A file that cannot be opened gives -1
    with the buffer as it was and one diagnostic.  A result other than -1
    is the count of a read that succeeded: it lies between 0 and
    [buflen - 1], the buffer holds the terminator at that index and nothing
    was printed.  (After a failed read(2) the function goes on to its store
    at index -1; that path is not described here.) *)
Theorem read_sysfs_result (w : world) (path : string) (buf : list ascii) (buflen : Z) :
  1 <= buflen < 2 ^ 63 ->
  Z.of_nat (length buf) = buflen ->
  ((files w !! path ≫= fun f => if can_open_rd f then Some f else None) = None ->
   read_sysfs path buf buflen w
   = Ok ((-1, buf), set_stderr w (stderr w ++ ["read_sysfs failed (open)"])))
  /\ (forall r buf' w',
        read_sysfs path buf buflen w = Ok ((r, buf'), w') -> r <> -1 ->
        0 <= r <= buflen - 1 /\ buf' !! Z.to_nat r = Some NUL
        /\ length buf' = length buf /\ w' = w
        /\ exists f data,
             files w !! path = Some f /\ can_open_rd f = true
             /\ on_read f = Some data).
Proof.
  intros Hlen Hbuf. split; [apply read_sysfs_unopenable|].
  intros r buf' w' H Hr.
  destruct (files w !! path ≫= fun f => if can_open_rd f then Some f else None)
    as [f|] eqn:Hopen.
  - destruct (files w !! path) as [f0|] eqn:Hf; cbn in Hopen; [|discriminate].
    destruct (can_open_rd f0) eqn:Ho; [|discriminate].
    destruct (on_read f0) as [data|] eqn:Hd.
    + destruct (read_sysfs_fills_buffer w path f0 data buf buflen Hf Ho Hd Hlen Hbuf)
        as (b & R & Hn & Eb & Lb & _).
      rewrite R in H. injection H as <- <- <-.
      split; [lia|]. split; [|split; [exact Lb | split; [reflexivity | eauto]]].
      rewrite Nat2Z.id, Eb. now rewrite lookup_app_r, Nat.sub_diag by lia.
    + rewrite (read_sysfs_failed_read w path f0 buf buflen Hf Ho Hd) in H. discriminate.
  - rewrite (read_sysfs_unopenable w path buf buflen Hopen) in H.
    injection H as <- _ _. contradiction.
Qed.

Lemma read_sysfs_result_witness :
  let w := machine None (Some (plain_file "12345")) (desktop_audio [] []) in
  read_sysfs MAX_BRIGHTNESS_PATH (replicate 4 NUL) 4 w
  = Ok ((-1, replicate 4 NUL), set_stderr w (stderr w ++ ["read_sysfs failed (open)"]))
  /\ 0 <= 3 <= 4 - 1.
Proof.
  intros w. split.
  - apply (read_sysfs_result w MAX_BRIGHTNESS_PATH (replicate 4 NUL) 4);
      [lia | reflexivity | reflexivity].
  - destruct (read_sysfs_result w BRIGHTNESS_PATH (replicate 4 NUL) 4) as [_ H];
      [lia | reflexivity |].
    apply (H 3 (list_ascii_of_string "123" ++ [NUL]) w); [reflexivity | lia].
Defined.

(** A count beyond the buffer makes write(2) read outside it. *)
Lemma write_past_buffer_faults (w : world) (fd : string) (buf : list ascii) (nbytes : Z) :
  Z.of_nat (length buf) < nbytes ->
  sys_write fd buf nbytes w = Fault (OutOfBounds (to_size_t nbytes) (Z.of_nat (length buf))).
Proof.
  intros H. unfold sys_write.
  replace (nbytes <=? Z.of_nat (length buf)) with false by (symmetry; apply Z.leb_gt; lia).
  now rewrite andb_false_r.
Qed.

(** X5: for a count [nbytes] within the buffer, [write_sysfs] makes at most
    one write(2) call, handing over the first [nbytes] bytes of the buffer;
    its result lies between -1 and [nbytes]; it prints its diagnostic
    exactly when the result is not [nbytes]; the files are not otherwise
    touched and nothing goes to stdout. *)
Theorem write_sysfs_outcome (w : world) (path : string) (buf : list ascii) (nbytes : Z) :
  0 <= nbytes <= Z.of_nat (length buf) ->
  exists r w',
    write_sysfs path buf nbytes w = Ok (r, w')
    /\ -1 <= r <= nbytes
    /\ files w' = files w /\ stdout w' = stdout w /\ audio w' = audio w
    /\ (written w' = written w /\ r = -1
        \/ written w'
           = written w ++ [{| wr_path := path;
                              wr_data := string_of_list_ascii (take (Z.to_nat nbytes) buf);
                              wr_ret := r |}])
    /\ (r = nbytes -> stderr w' = stderr w)
    /\ (r <> nbytes -> exists msg, stderr w' = stderr w ++ [msg]).
Proof.
  intros Hn. unfold write_sysfs, bind, sys_open.
  destruct (files w !! path) as [f|] eqn:Hf.
  - destruct (can_open_wr f) eqn:Ho.
    + rewrite (sys_write_in_bounds w path buf nbytes Hn). rewrite Hf.
      cbn [mbind option_bind]. cbv zeta.
      set (r := match on_write f with Some k => Z.min (Z.max 0 k) nbytes | None => -1 end).
      assert (Hr : -1 <= r <= nbytes) by (unfold r; destruct (on_write f); lia).
      destruct (Z.eqb_spec r (-1)) as [E1|E1]; cbn [orb];
        [|destruct (Z.ltb_spec r nbytes)];
        (eexists _, _; split; [reflexivity|]; cbn;
         repeat split; try lia; try (right; reflexivity);
         try (intros; lia); eauto).
    + eexists _, _. split; [reflexivity|]. cbn.
      repeat split; try lia; try (left; split; reflexivity); try (intros; lia); eauto.
  - eexists _, _. split; [reflexivity|]. cbn.
    repeat split; try lia; try (left; split; reflexivity); try (intros; lia); eauto.
Qed.

Lemma write_sysfs_outcome_witness :
  exists r w',
    write_sysfs BRIGHTNESS_PATH (list_ascii_of_string "77") 2 (laptop "255" "200")
    = Ok (r, w') /\ -1 <= r <= 2.
Proof.
  destruct (write_sysfs_outcome (laptop "255" "200") BRIGHTNESS_PATH
              (list_ascii_of_string "77") 2) as (r & w' & R & B & _); [cbn; lia|].
  exists r, w'. split; [exact R | exact B].
Defined.

(** ** The brightness invocation as a whole *)

Lemma digit_char_kept (d : Z) : 0 <= d <= 9 -> is_trimmed (digit_char d) = false.
Proof.
  intros H.
  assert (d = 0 \/ d = 1 \/ d = 2 \/ d = 3 \/ d = 4 \/ d = 5 \/ d = 6 \/ d = 7
          \/ d = 8 \/ d = 9) as Hd by lia.
  repeat (destruct Hd as [-> | Hd]; [reflexivity|]). subst. reflexivity.
Qed.

Lemma fmt_digits_kept (fuel : nat) (n : Z) (acc : string) :
  Forall (fun c => is_trimmed c = false) (list_ascii_of_string acc) ->
  Forall (fun c => is_trimmed c = false) (list_ascii_of_string (fmt_digits fuel n acc)).
Proof.
  revert n acc. induction fuel as [|fuel IH]; intros n acc Hacc; cbn [fmt_digits];
    [exact Hacc|].
  assert (Hd : is_trimmed (digit_char (n mod 10)) = false)
    by (apply digit_char_kept; pose proof (Z.mod_pos_bound n 10); lia).
  destruct (n / 10 =? 0); [|apply IH]; cbn [list_ascii_of_string];
    constructor; assumption.
Qed.

Lemma fmt_d_kept (z : Z) :
  Forall (fun c => is_trimmed c = false) (list_ascii_of_string (fmt_d z)).
Proof.
  unfold fmt_d. destruct (z <? 0).
  - cbn [list_ascii_of_string]. constructor; [reflexivity|].
    apply fmt_digits_kept. constructor.
  - apply fmt_digits_kept. constructor.
Qed.

Lemma kept_not_nul (l : list ascii) :
  Forall (fun c => is_trimmed c = false) l -> Forall (fun c => c <> NUL) l.
Proof.
  induction 1 as [|c l Hc _ IH]; constructor; [|exact IH].
  intros ->. discriminate Hc.
Qed.

Lemma rtrim_any_state {St St' : Type} (buf buf' : list ascii) (s : St) (s' : St') :
  rtrim buf s = Ok (buf', s) -> rtrim buf s' = Ok (buf', s').
Proof.
  unfold rtrim, store, ret, raise.
  destruct (_ && _); [|discriminate]. now intros [= <-].
Qed.

(** The buffer after snprintf holds the decimal text, and [rtrim] leaves
    that text as it is. *)
Lemma rtrim_decimal (buf : list ascii) (v : Z) :
  length buf = 512%nat ->
  exists buf',
    c_str buf' = fmt_d v
    /\ forall (St : Type) (s : St), rtrim (snd (snprintf_d buf 512 v)) s = Ok (buf', s).
Proof.
  intros Hlen. unfold snprintf_d. cbn [snd].
  pose proof (fmt_d_length v) as H11.
  pose proof (list_ascii_length (fmt_d v)) as Hl.
  pose proof (fmt_d_kept v) as Hk.
  change (Z.to_nat (512 - 1)) with 511%nat.
  rewrite take_ge by lia.
  set (digits := list_ascii_of_string (fmt_d v)) in *.
  unfold blit. rewrite <- app_assoc. cbn [app].
  set (buf3 := digits ++ NUL :: drop (length (digits ++ [NUL])) buf).
  assert (Hc : c_str buf3 = fmt_d v).
  { unfold buf3. rewrite c_str_of_chars by now apply kept_not_nul.
    apply string_of_list_ascii_of_string. }
  destruct (@rtrim_trims unit buf3 tt) as (buf' & kept & dropped & R & _ & E & C & D & _).
  { unfold strlen. rewrite Hc. unfold buf3. rewrite length_app. cbn [length]. lia. }
  exists buf'. split; [|intros St s; exact (rtrim_any_state _ _ _ _ R)].
  rewrite Hc in E. fold digits in E.
  assert (dropped = []) as ->.
  { destruct dropped as [|c dropped]; [reflexivity|].
    rewrite E in Hk. apply Forall_app in Hk. destruct Hk as [_ Hk].
    inversion Hk as [|? ? Hc1 _]; subst. inversion D as [|? ? [Hc2 _] _]; subst.
    congruence. }
  rewrite app_nil_r in E. rewrite C, <- E. apply string_of_list_ascii_of_string.
Qed.

Lemma write_sysfs_exact (w : world) (fb : sysfs_file) (buf : list ascii) (v : Z) :
  files w !! BRIGHTNESS_PATH = Some fb -> can_open_wr fb = true ->
  take (String.length (fmt_d v)) buf = list_ascii_of_string (fmt_d v) ->
  let wr := write_result fb v in
  let w1 := set_written w (written w ++ [{| wr_path := BRIGHTNESS_PATH;
                                            wr_data := fmt_d v; wr_ret := wr |}]) in
  write_sysfs BRIGHTNESS_PATH buf (Z.of_nat (String.length (fmt_d v))) w
  = Ok (wr, if wr =? Z.of_nat (String.length (fmt_d v)) then w1
            else set_stderr w1 (stderr w1 ++ ["write_sysfs failed (write)"])).
Proof.
  intros Hf Ho Ht wr w1. unfold write_sysfs.
  erewrite bind_ok; cycle 1.
  { unfold sys_open. rewrite Hf, Ho. reflexivity. }
  cbv beta iota.
  erewrite bind_ok; cycle 1.
  { rewrite sys_write_in_bounds by (apply take_text_in_bounds, Ht).
    rewrite Hf. cbn [mbind option_bind]. cbv zeta. rewrite Nat2Z.id, Ht.
    rewrite string_of_list_ascii_of_string. fold (write_result fb v). reflexivity. }
  cbv beta. fold wr. fold w1.
  assert (Hwr : wr = -1 \/ 0 <= wr <= Z.of_nat (String.length (fmt_d v))).
  { unfold wr, write_result. destruct (on_write fb); lia. }
  destruct (Z.eqb_spec wr (Z.of_nat (String.length (fmt_d v)))) as [E|E].
  - replace (wr =? -1) with false by (symmetry; apply Z.eqb_neq; lia).
    replace (wr <? Z.of_nat (String.length (fmt_d v))) with false
      by (symmetry; apply Z.ltb_ge; lia).
    reflexivity.
  - replace ((wr =? -1) || (wr <? Z.of_nat (String.length (fmt_d v)))) with true;
      [reflexivity|].
    symmetry. apply orb_true_iff. destruct Hwr as [->|Hwr]; [left; reflexivity|].
    right. apply Z.ltb_lt. lia.
Qed.

(** The run after both reads and a parsed current value, with the write
    reaching write(2): all of the final state. *)
Lemma do_brightness_written (w : world) (delta : Z) (sm sb : string) (br : Z)
      (fb : sysfs_file) :
  sysfs_text w MAX_BRIGHTNESS_PATH = Some sm ->
  sysfs_text w BRIGHTNESS_PATH = Some sb ->
  sscanf_d sb = Some br ->
  files w !! BRIGHTNESS_PATH = Some fb -> can_open_wr fb = true ->
  let v := clamp_brightness (wrap_int (br + delta)) (default 2147483647 (sscanf_d sm)) in
  let text := fmt_d v in
  let wr := write_result fb v in
  exists w',
    do_brightness delta w = Ok ((if wr =? -1 then 1 else 0), w')
    /\ written w' = written w ++ [{| wr_path := BRIGHTNESS_PATH; wr_data := text;
                                     wr_ret := wr |}]
    /\ files w' = files w /\ audio w' = audio w
    /\ stdout w' = (if wr =? -1 then stdout w else stdout w +:+ "Brightness: " +:+ text)
    /\ stderr w' = (if wr =? Z.of_nat (String.length text) then stderr w
                    else stderr w ++ ["write_sysfs failed (write)"]).
Proof.
  intros Hm Hb Hp Hf Ho v text wr. unfold do_brightness.
  two_reads w sm sb Hm Hb. rewrite Hp.
  replace (match sscanf_d sm with Some v0 => v0 | None => 2147483647 end)
    with (default 2147483647 (sscanf_d sm)) by (destruct (sscanf_d sm); reflexivity).
  fold v.
  pose proof (snprintf_d_text buf2 v L2) as Hs.
  destruct (rtrim_decimal buf2 v L2) as (buf4 & C4 & R4).
  destruct (snprintf_d buf2 512 v) as [n3 buf3]. cbn [snd] in R4.
  destruct Hs as (-> & L3 & T3 & S3).
  erewrite bind_ok by (apply (write_sysfs_exact w fb buf3 v Hf Ho T3)).
  cbv beta. fold wr. fold text.
  destruct (wr =? -1).
  - eexists. split; [reflexivity|].
    destruct (wr =? Z.of_nat (String.length text)); cbn; repeat split; reflexivity.
  - erewrite bind_ok by exact (R4 _ _). cbv beta. rewrite C4.
    eexists. split; [reflexivity|].
    destruct (wr =? Z.of_nat (String.length text)); cbn; repeat split; reflexivity.
Qed.

(** X6: when the new value reaches write(2) and write(2) does not return
    -1, the invocation returns 0 and prints "Brightness: " followed by
    exactly the text it handed to write(2): the trimming of the formatted
    buffer removes nothing from a decimal number. *)
Theorem do_brightness_prints_written_text (w : world) (delta : Z) (sm sb : string)
        (br k : Z) (fb : sysfs_file) :
  sysfs_text w MAX_BRIGHTNESS_PATH = Some sm ->
  sysfs_text w BRIGHTNESS_PATH = Some sb ->
  sscanf_d sb = Some br ->
  files w !! BRIGHTNESS_PATH = Some fb -> can_open_wr fb = true ->
  on_write fb = Some k ->
  exists w' text r,
    do_brightness delta w = Ok (0, w')
    /\ written w' = written w ++ [{| wr_path := BRIGHTNESS_PATH; wr_data := text;
                                     wr_ret := r |}]
    /\ stdout w' = (stdout w +:+ "Brightness: " +:+ text)%string
    /\ sscanf_d text
       = Some (clamp_brightness (wrap_int (br + delta)) (default 2147483647 (sscanf_d sm))).
Proof.
  intros Hm Hb Hp Hf Ho Hk.
  destruct (do_brightness_written w delta sm sb br fb Hm Hb Hp Hf Ho)
    as (w' & R & W & _ & _ & O & _).
  set (v := clamp_brightness (wrap_int (br + delta)) (default 2147483647 (sscanf_d sm))) in *.
  assert (Hwr : (write_result fb v =? -1) = false).
  { apply Z.eqb_neq. unfold write_result. rewrite Hk. lia. }
  rewrite Hwr in R, O. exists w', (fmt_d v), (write_result fb v).
  split; [exact R|]. split; [exact W|]. split; [exact O|].
  apply sscanf_d_fmt_d. unfold v, clamp_brightness.
  pose proof (wrap_int_range (br + delta)) as Hw.
  assert (Hmx : INT_MIN <= default 2147483647 (sscanf_d sm) <= INT_MAX).
  { destruct (sscanf_d sm) as [m|] eqn:E; cbn.
    - exact (sscanf_d_range _ _ E).
    - unfold INT_MIN, INT_MAX. lia. }
  unfold INT_MIN, INT_MAX in *.
  destruct (_ <? 0); [lia|]. destruct (_ >? _); lia.
Qed.

Lemma do_brightness_prints_written_text_witness :
  exists w' text r,
    do_brightness (-50) (laptop "255" "10") = Ok (0, w')
    /\ written w' = [{| wr_path := BRIGHTNESS_PATH; wr_data := text; wr_ret := r |}]
    /\ stdout w' = ("Brightness: " +:+ text)%string.
Proof.
  destruct (do_brightness_prints_written_text (laptop "255" "10") (-50) "255" "10" 10 4096
              (plain_file "10")) as (w' & text & r & R & W & O & _);
    [reflexivity | reflexivity | reflexivity | reflexivity | reflexivity | reflexivity |].
  exists w', text, r. split; [exact R|]. split; [exact W | exact O].
Defined.

(** The run when the max-brightness file is read and the brightness file
    cannot be opened for reading. *)
Lemma do_brightness_br_closed (w : world) (delta : Z) (sm : string) :
  sysfs_text w MAX_BRIGHTNESS_PATH = Some sm ->
  (files w !! BRIGHTNESS_PATH ≫= fun f => if can_open_rd f then Some f else None) = None ->
  do_brightness delta w
  = Ok (1, set_stderr w (stderr w ++ ["read_sysfs failed (open)"])).
Proof.
  intros Hm Hc. unfold do_brightness.
  destruct (sysfs_text_read w _ sm (replicate 512 NUL) Hm) as (n1 & buf1 & R1 & Hn1 & L1 & T1).
  { apply length_replicate. }
  erewrite bind_ok by exact R1. cbv beta iota.
  replace (n1 =? -1) with false by (symmetry; apply Z.eqb_neq; lia).
  erewrite bind_ok by (apply read_sysfs_unopenable; exact Hc).
  reflexivity.
Qed.

Lemma sysfs_text_cases (w : world) (path : string) :
  read_fails w path = false ->
  (exists s, sysfs_text w path = Some s)
  \/ (files w !! path ≫= fun f => if can_open_rd f then Some f else None) = None.
Proof.
  unfold read_fails, sysfs_text. destruct (files w !! path) as [f|]; cbn; [|now right].
  destruct (can_open_rd f); [|now right].
  destruct (on_read f); cbn; [eauto | discriminate].
Qed.

(** X7: when no read(2) fails, a brightness invocation always returns, with
    0 or 1.  It makes at most one write(2) call, on the brightness file, and
    changes no file model or audio state.  A result of 1 comes with exactly
    one diagnostic on stderr and nothing on stdout; a result of 0 comes with
    a write(2) that did not return -1 and the "Brightness: " line. *)
Theorem do_brightness_outcome (w : world) (delta : Z) :
  read_fails w MAX_BRIGHTNESS_PATH = false ->
  read_fails w BRIGHTNESS_PATH = false ->
  exists r w',
    do_brightness delta w = Ok (r, w')
    /\ (r = 0 \/ r = 1)
    /\ files w' = files w /\ audio w' = audio w
    /\ (written w' = written w
        \/ exists c, written w' = written w ++ [c] /\ wr_path c = BRIGHTNESS_PATH)
    /\ (r = 1 -> stdout w' = stdout w /\ exists msg, stderr w' = stderr w ++ [msg])
    /\ (r = 0 -> exists c, written w' = written w ++ [c] /\ wr_ret c <> -1
                           /\ stdout w' = (stdout w +:+ "Brightness: " +:+ wr_data c)%string).
Proof.
  intros Hr1 Hr2.
  destruct (sysfs_text_cases w _ Hr1) as [[sm Hm]|Hc1].
  2:{ rewrite (do_brightness_max_closed w delta Hc1). eexists _, _.
      split; [reflexivity|]. cbn. repeat split; eauto; discriminate. }
  destruct (sysfs_text_cases w _ Hr2) as [[sb Hb]|Hc2].
  2:{ rewrite (do_brightness_br_closed w delta sm Hm Hc2). eexists _, _.
      split; [reflexivity|]. cbn. repeat split; eauto; discriminate. }
  destruct (sscanf_d sb) as [br|] eqn:Hp.
  2:{ rewrite (do_brightness_unparsed w delta sm sb Hm Hb Hp). eexists _, _.
      split; [reflexivity|]. cbn. repeat split; eauto; discriminate. }
  destruct (files w !! BRIGHTNESS_PATH ≫= fun f => if can_open_wr f then Some f else None)
    as [fb|] eqn:Hw.
  2:{ rewrite (do_brightness_unwritable w delta sm sb br Hm Hb Hp Hw). eexists _, _.
      split; [reflexivity|]. cbn. repeat split; eauto; discriminate. }
  destruct (files w !! BRIGHTNESS_PATH) as [fb0|] eqn:Hf; cbn in Hw; [|discriminate].
  destruct (can_open_wr fb0) eqn:Ho; [|discriminate]. injection Hw as <-.
  destruct (do_brightness_written w delta sm sb br fb0 Hm Hb Hp Hf Ho)
    as (w' & R & W & F & A & O & E).
  set (v := clamp_brightness _ _) in *. set (wr := write_result fb0 v) in *.
  assert (Hwr : wr = -1 \/ 0 <= wr <= Z.of_nat (String.length (fmt_d v))).
  { unfold wr, write_result. destruct (on_write fb0); lia. }
  exists (if wr =? -1 then 1 else 0), w'. split; [exact R|].
  destruct (Z.eqb_spec wr (-1)) as [E1|E1].
  - replace (wr =? Z.of_nat (String.length (fmt_d v))) with false in E
      by (symmetry; apply Z.eqb_neq; lia).
    repeat split; eauto; discriminate.
  - repeat split; eauto; discriminate.
Qed.

Lemma do_brightness_outcome_witness :
  exists r w',
    do_brightness 5 (laptop "255" "bright") = Ok (r, w') /\ (r = 0 \/ r = 1).
Proof.
  destruct (do_brightness_outcome (laptop "255" "bright") 5) as (r & w' & R & B & _);
    [reflexivity | reflexivity |].
  exists r, w'. split; [exact R | exact B].
Defined.

(** ** Sessions of the audio path *)

Lemma pulse_session_ready (op : ascii) (arg : Z) (w : world) :
  session_up (audio w) = true ->
  pulse_session op arg w
  = match pa_mainloop_run 8 0 (session_start op arg w) with
    | Ok (e, st) => Ok (e, env st)
    | Fault f => Fault f
    end.
Proof.
  intros Hup. destruct (session_up_inv _ Hup) as (H1 & H2 & H3 & H4 & H5).
  unfold pulse_session. rewrite H1, H2, H3, H4, H5. reflexivity.
Qed.

#[local] Arguments new_volume : simpl never.
#[local] Arguments pa_cvolume_scale : simpl never.
#[local] Arguments pa_cvolume_max : simpl never.
#[local] Arguments pa_volume_snprint : simpl never.
#[local] Arguments to_uint32 : simpl never.
#[local] Arguments fmt_d : simpl never.

Lemma session_sink_toggle (w : world) (arg : Z) (d : pa_device) :
  find_device (default_sink_name (server_info (audio w))) (sinks (audio w)) = Some d ->
  pa_mainloop_run 8 0 (session_start "s" arg w)
  = Ok (0, {| pulse_mapi := true; pulse_arg := arg; pulse_op := "s";
              loop_quit := Some 0;
              requests := [get_server_info cb_do_pulse_server_info;
                           get_sink_info_by_name
                             (default_sink_name (server_info (audio w))) cb_do_pulse_vs;
                           set_sink_mute_by_index (dev_index d)
                             (if dev_muted d then 0 else 1) cb_do_pulse_success];
              env := {| files := files w; written := written w;
                        stdout := stdout w +:+ (if dev_muted d then "Speakers on"
                                                else "Speakers muted");
                        stderr := stderr w;
                        audio := set_sinks (audio w)
                                   (set_mute (dev_index d) (if dev_muted d then 0 else 1)
                                      (sinks (audio w))) |} |}).
Proof.
  intros Hd. pose proof (find_device_index _ _ _ Hd) as Hidx.
  simpl. rewrite Hd. simpl.
  destruct (dev_muted d); simpl; rewrite Hidx; reflexivity.
Qed.

Lemma session_source_toggle (w : world) (arg : Z) (d : pa_device) :
  find_device (default_source_name (server_info (audio w))) (sources (audio w)) = Some d ->
  pa_mainloop_run 8 0 (session_start "m" arg w)
  = Ok (0, {| pulse_mapi := true; pulse_arg := arg; pulse_op := "m";
              loop_quit := Some 0;
              requests := [get_server_info cb_do_pulse_server_info;
                           get_source_info_by_name
                             (default_source_name (server_info (audio w))) cb_do_pulse_m;
                           set_source_mute_by_index (dev_index d)
                             (if dev_muted d then 0 else 1) cb_do_pulse_success];
              env := {| files := files w; written := written w;
                        stdout := stdout w +:+ (if dev_muted d then "Mic on"
                                                else "Mic muted");
                        stderr := stderr w;
                        audio := set_sources (audio w)
                                   (set_mute (dev_index d) (if dev_muted d then 0 else 1)
                                      (sources (audio w))) |} |}).
Proof.
  intros Hd. pose proof (find_device_index _ _ _ Hd) as Hidx.
  simpl. rewrite Hd. simpl.
  destruct (dev_muted d); simpl; rewrite Hidx; reflexivity.
Qed.

Lemma session_volume_set (w : world) (arg : Z) (d : pa_device) :
  find_device (default_sink_name (server_info (audio w))) (sinks (audio w)) = Some d ->
  1 <= channels (dev_volume d) ->
  let t := new_volume (pa_cvolume_max (dev_volume d)) arg in
  let v := pa_cvolume_scale (dev_volume d) (to_uint32 t) in
  pa_mainloop_run 8 0 (session_start "v" arg w)
  = Ok (0, {| pulse_mapi := true; pulse_arg := arg; pulse_op := "v";
              loop_quit := Some 0;
              requests := [get_server_info cb_do_pulse_server_info;
                           get_sink_info_by_name
                             (default_sink_name (server_info (audio w))) cb_do_pulse_vs;
                           set_sink_volume_by_index (dev_index d) v cb_do_pulse_success];
              env := {| files := files w; written := written w;
                        stdout := stdout w +:+ "Speakers "
                                  +:+ pa_volume_snprint (to_uint32 t);
                        stderr := stderr w;
                        audio := set_sinks (audio w)
                                   (set_volume (dev_index d) v (sinks (audio w))) |} |}).
Proof.
  intros Hd Hch t v. pose proof (find_device_index _ _ _ Hd) as Hidx.
  simpl. rewrite Hd. simpl. unfold do_pulse_vs at 1. simpl.
  replace (channels (dev_volume d) <? 1) with false by (symmetry; apply Z.ltb_ge; lia).
  simpl. rewrite Hidx. reflexivity.
Qed.

Lemma session_volume_no_channel (w : world) (arg : Z) (d : pa_device) :
  find_device (default_sink_name (server_info (audio w))) (sinks (audio w)) = Some d ->
  channels (dev_volume d) < 1 ->
  pa_mainloop_run 8 0 (session_start "v" arg w)
  = Ok (0, {| pulse_mapi := true; pulse_arg := arg; pulse_op := "v";
              loop_quit := Some 0;
              requests := [get_server_info cb_do_pulse_server_info;
                           get_sink_info_by_name
                             (default_sink_name (server_info (audio w))) cb_do_pulse_vs];
              env := {| files := files w; written := written w; stdout := stdout w;
                        stderr := stderr w; audio := audio w |} |}).
Proof.
  intros Hd Hch.
  simpl. rewrite Hd. simpl. unfold do_pulse_vs at 1. simpl.
  replace (channels (dev_volume d) <? 1) with true by (symmetry; apply Z.ltb_lt; lia).
  reflexivity.
Qed.

Lemma session_sink_missing (w : world) (op : ascii) (arg : Z) :
  op = "v"%char \/ op = "s"%char ->
  find_device (default_sink_name (server_info (audio w))) (sinks (audio w)) = None ->
  pa_mainloop_run 8 0 (session_start op arg w)
  = Ok (1, {| pulse_mapi := true; pulse_arg := arg; pulse_op := op;
              loop_quit := Some 1;
              requests := [get_server_info cb_do_pulse_server_info;
                           get_sink_info_by_name
                             (default_sink_name (server_info (audio w))) cb_do_pulse_vs];
              env := {| files := files w; written := written w; stdout := stdout w;
                        stderr := stderr w
                                  ++ ["pa_context_get_sink_info_by_name failed: -1
"];
                        audio := audio w |} |}).
Proof.
  intros [-> | ->] Hd; simpl; rewrite Hd; reflexivity.
Qed.

Lemma session_source_missing (w : world) (arg : Z) :
  find_device (default_source_name (server_info (audio w))) (sources (audio w)) = None ->
  pa_mainloop_run 8 0 (session_start "m" arg w)
  = Ok (1, {| pulse_mapi := true; pulse_arg := arg; pulse_op := "m";
              loop_quit := Some 1;
              requests := [get_server_info cb_do_pulse_server_info;
                           get_source_info_by_name
                             (default_source_name (server_info (audio w))) cb_do_pulse_m];
              env := {| files := files w; written := written w; stdout := stdout w;
                        stderr := stderr w
                                  ++ ["pa_context_get_source_info_by_name failed: -1
"];
                        audio := audio w |} |}).
Proof.
  intros Hd; simpl; rewrite Hd; reflexivity.
Qed.

(** ** Invariants of the callbacks and of the loop *)

Lemma bind_inv {S A B : Type} (m : M S A) (k : A -> M S B) (s s' : S) (b : B) :
  bind m k s = Ok (b, s') -> exists a s1, m s = Ok (a, s1) /\ k a s1 = Ok (b, s').
Proof.
  unfold bind. destruct (m s) as [[a s1]|f]; [eauto | discriminate].
Qed.

Lemma preserves_ret {A : Type} (P : pulse -> Prop) (a : A) : preserves P (ret a).
Proof. intros st a' st' HP [= _ <-]. exact HP. Qed.

Lemma preserves_raise {A : Type} (P : pulse -> Prop) (f : fault) :
  preserves P (@raise pulse A f).
Proof. intros st a st' _ H. discriminate H. Qed.

Lemma preserves_bind {A B : Type} (P : pulse -> Prop) (m : M pulse A) (k : A -> M pulse B) :
  preserves P m -> (forall a, preserves P (k a)) -> preserves P (bind m k).
Proof.
  intros Hm Hk st b st' HP H.
  destruct (bind_inv _ _ _ _ _ H) as (a & s1 & E1 & E2).
  exact (Hk a _ _ _ (Hm _ _ _ HP E1) E2).
Qed.

Lemma quit_status_send (r : pa_request) : preserves quit_is_status (send r).
Proof. intros st a st' HP [= _ <-]. exact HP. Qed.

Lemma quit_status_in_env {A : Type} (m : M world A) : preserves quit_is_status (in_env m).
Proof.
  intros st a st' HP H. unfold in_env in H.
  destruct (m (env st)) as [[a' w]|f]; [|discriminate]. injection H as _ <-. exact HP.
Qed.

Lemma quit_status_pulse_quit (e : Z) :
  e = 0 \/ e = 1 -> preserves quit_is_status (pulse_quit e).
Proof.
  intros He st a st' HP H. unfold pulse_quit in H.
  destruct (pulse_mapi st); injection H as _ <-; [|exact HP].
  unfold quit_is_status. cbn. destruct He as [-> | ->]; auto.
Qed.

Create HintDb quit_status.
#[local] Hint Resolve preserves_ret preserves_raise preserves_bind quit_status_send
  quit_status_in_env quit_status_pulse_quit : quit_status.

Ltac preserves_here :=
  match goal with
  | HP : quit_is_status ?st, H : ?m ?st = Ok (?a, ?st') |- _ =>
      refine ((_ : preserves quit_is_status m) st a st' HP H); auto with quit_status
  end.

(** No callback asks the loop to quit with a status other than 0 or 1. *)
Lemma callbacks_quit_with_status (cb : callback) (r : reply) :
  preserves quit_is_status (fire cb r).
Proof.
  destruct cb, r; simpl; auto with quit_status.
  - intros st a st' HP H. unfold do_pulse_server_info in H.
    destruct (_ || _) in H; [preserves_here|]. destruct (Ascii.eqb _ _) in H; preserves_here.
  - unfold do_pulse_vs. destruct (eol <? 0); [auto 6 with quit_status|].
    destruct (negb (eol =? 0)); [auto with quit_status|].
    destruct i as [i|]; [|auto with quit_status].
    intros st a st' HP H.
    destruct (Ascii.eqb _ "s") in H; [preserves_here|].
    destruct (Ascii.eqb _ "v") in H; [|preserves_here; auto 6 with quit_status].
    destruct (_ <? 1) in H; preserves_here.
  - unfold do_pulse_m. destruct (eol <? 0); [auto 6 with quit_status|].
    destruct (negb (eol =? 0)); [auto with quit_status|].
    destruct i as [i|]; auto with quit_status.
  - unfold do_pulse_success. auto with quit_status.
Qed.

Lemma fire_all_preserves (P : pulse -> Prop) (l : list (callback * reply)) :
  (forall cb r, preserves P (fire cb r)) -> preserves P (fire_all l).
Proof.
  intros HP. induction l as [|[cb r] l IH]; cbn [fire_all].
  - apply preserves_ret.
  - apply preserves_bind; [apply HP | intros _; exact IH].
Qed.

(** What every callback maintains, the loop maintains; and the status the
    loop returns is the one its quit flag holds. *)
Lemma pa_mainloop_run_preserves (P : pulse -> Prop) :
  (forall cb r, preserves P (fire cb r)) ->
  (forall st w, P st -> P (set_env st w)) ->
  forall fuel served st e st',
    P st -> pa_mainloop_run fuel served st = Ok (e, st') ->
    P st' /\ loop_quit st' = Some e.
Proof.
  intros Hcb Henv. induction fuel as [|fuel IH]; intros served st e st' HP H;
    cbn [pa_mainloop_run] in H.
  - destruct (loop_quit st) eqn:Q; [|discriminate]. injection H as <- <-. auto.
  - destruct (loop_quit st) eqn:Q; [injection H as <- <-; auto|].
    destruct (requests st !! served) as [r|]; [|discriminate].
    destruct (serve r (audio (env st))) as [a replies].
    destruct (fire_all replies (set_env st (set_audio (env st) a)))
      as [[[] st1]|f] eqn:F; [|discriminate].
    apply (IH _ _ _ _ (fire_all_preserves P replies Hcb _ _ _ (Henv _ _ HP) F) H).
Qed.

(** X8: the globals [pulse_mapi], [pulse_arg] and [pulse_op] are written by
    [main] only: whatever replies arrive and however long the loop runs,
    they hold their initial values when it returns, and the returned status
    is the one passed to the last [pulse_quit]. *)
Theorem loop_keeps_globals (fuel served : nat) (st st' : pulse) (e : Z) :
  pa_mainloop_run fuel served st = Ok (e, st') ->
  pulse_mapi st' = pulse_mapi st /\ pulse_arg st' = pulse_arg st
  /\ pulse_op st' = pulse_op st /\ loop_quit st' = Some e.
Proof.
  intros H.
  set (P := fun s => pulse_mapi s = pulse_mapi st /\ pulse_arg s = pulse_arg st
                     /\ pulse_op s = pulse_op st).
  assert (Hcb : forall cb r, preserves P (fire cb r)).
  { intros cb r s a s' (E1 & E2 & E3) F.
    destruct (callbacks_keep_globals cb r _ _ _ F) as (F1 & F2 & F3).
    unfold P. rewrite F1, F2, F3. auto. }
  assert (Henv : forall s w, P s -> P (set_env s w)) by (intros s w HP; exact HP).
  assert (HP : P st) by (unfold P; auto).
  destruct (pa_mainloop_run_preserves P Hcb Henv _ _ _ _ _ HP H) as ((E1 & E2 & E3) & Q).
  auto.
Qed.

Lemma loop_keeps_globals_witness :
  exists st',
    pa_mainloop_run 8 0 (session_start "s" 7 (laptop "255" "200")) = Ok (0, st')
    /\ pulse_arg st' = 7 /\ pulse_op st' = "s"%char.
Proof.
  eexists. split; [vm_compute; reflexivity|].
  destruct (loop_keeps_globals 8 0 (session_start "s" 7 (laptop "255" "200")) _ 0 eq_refl)
    as (_ & A & O & _).
  split; [exact A | exact O].
Defined.

Lemma do_brightness_status (delta : Z) (w w' : world) (r : Z) :
  do_brightness delta w = Ok (r, w') -> r = 0 \/ r = 1.
Proof.
  unfold do_brightness. intros H.
  apply bind_inv in H. destruct H as ([n1 buf1] & w1 & _ & H).
  destruct (n1 =? -1); [injection H as <- _; auto|].
  apply bind_inv in H. destruct H as ([n2 buf2] & w2 & _ & H).
  destruct (n2 =? -1); [injection H as <- _; auto|].
  destruct (sscanf_d (c_str buf2)) as [br|].
  - destruct (snprintf_d buf2 512 _) as [n3 buf3].
    apply bind_inv in H. destruct H as (n4 & w4 & _ & H).
    destruct (n4 =? -1); [injection H as <- _; auto|].
    apply bind_inv in H. destruct H as (buf5 & w5 & _ & H).
    apply bind_inv in H. destruct H as ([] & w6 & _ & H).
    injection H as <- _. auto.
  - apply bind_inv in H. destruct H as ([] & w3 & _ & H). injection H as <- _. auto.
Qed.

Lemma pulse_session_status (op : ascii) (arg : Z) (w w' : world) (r : Z) :
  pulse_session op arg w = Ok (r, w') -> r = 0 \/ r = 1.
Proof.
  unfold pulse_session. intros H.
  destruct (mainloop_new_ok (audio w)); cbn [negb] in H;
    [|injection H as <- _; auto].
  destruct (signal_init_ok (audio w)); cbn [negb] in H;
    [|injection H as <- _; auto].
  destruct (context_new_ok (audio w)); cbn [negb] in H;
    [|injection H as <- _; auto].
  destruct (connect_ok (audio w)); cbn [negb] in H;
    [|injection H as <- _; auto].
  match type of H with
  | match ?m ?st0 with _ => _ end = _ => destruct (m st0) as [[[] st1]|f] eqn:E
  end; [|discriminate].
  destruct (pa_mainloop_run 8 0 st1) as [[e st2]|f] eqn:L; [|discriminate].
  injection H as <- _.
  assert (Q1 : quit_is_status st1).
  { destruct (becomes_ready (audio w)); injection E as <-; unfold quit_is_status; cbn; auto. }
  destruct (pa_mainloop_run_preserves quit_is_status callbacks_quit_with_status
              (fun _ _ HP => HP) _ _ _ _ _ Q1 L) as ([Q|[Q|Q]] & Qe);
    rewrite Q in Qe; [discriminate | injection Qe as <- | injection Qe as <-]; auto.
Qed.

(** X9: whenever [main] returns, it returns 0 or 1, whatever the arguments,
    the files and the server are. *)
Theorem main_exit_status (argv : list string) (w w' : world) (r : Z) :
  main argv w = Ok (r, w') -> r = 0 \/ r = 1.
Proof.
  unfold main. intros H.
  destruct (_ <? 2); [injection H as <- _; auto|].
  destruct (if _ >=? 3 then _ else _) as [arg|]; [|injection H as <- _; auto].
  destruct (Ascii.eqb _ "b").
  { destruct (_ <? 3); [injection H as <- _; auto|]. exact (do_brightness_status _ _ _ _ H). }
  destruct (_ && _); [injection H as <- _; auto|].
  destruct (_ || _); [exact (pulse_session_status _ _ _ _ _ H)|].
  injection H as <- _; auto.
Qed.

Lemma main_exit_status_witness : 0 = 0 \/ 0 = 1.
Proof.
  apply (main_exit_status ["sltpwmt"; "s"] (laptop "255" "200")
           (set_stdout (set_audio (laptop "255" "200")
                          (desktop_audio [speakers true (stereo 30000 60000)] [mic false]))
                       "Speakers muted") 0).
  vm_compute. reflexivity.
Defined.

Lemma is_audio_op_cases (op : ascii) :
  is_audio_op op = true -> op = "v"%char \/ op = "s"%char \/ op = "m"%char.
Proof.
  unfold is_audio_op. intros H.
  apply orb_true_iff in H. destruct H as [H|H]; [apply orb_true_iff in H; destruct H as [H|H]|];
    apply Ascii.eqb_eq in H; auto.
Qed.

(** X10: once the context is ready, an audio invocation always ends the loop:
    with status 0 when the server knows the default device of the operation
    (the default source for 'm', the default sink for 'v' and 's'), with
    status 1 when it does not.  At most three requests are sent, at most
    one of them a mutation, and none when the status is 1. *)
Theorem audio_session_outcome (w : world) (op : ascii) (arg : Z) :
  is_audio_op op = true ->
  exists st',
    pa_mainloop_run 8 0 (session_start op arg w)
    = Ok (match default_device op (audio w) with Some _ => 0 | None => 1 end, st')
    /\ (length (requests st') <= 3)%nat
    /\ (length (List.filter is_mutation (requests st')) <= 1)%nat
    /\ (default_device op (audio w) = None ->
        List.filter is_mutation (requests st') = [] /\ audio (env st') = audio w)
    /\ files (env st') = files w /\ written (env st') = written w
    /\ (session_up (audio w) = true ->
        pulse_session op arg w
        = Ok (match default_device op (audio w) with Some _ => 0 | None => 1 end,
              env st')).
Proof.
  intros Hop.
  cut (exists st',
    pa_mainloop_run 8 0 (session_start op arg w)
    = Ok (match default_device op (audio w) with Some _ => 0 | None => 1 end, st')
    /\ (length (requests st') <= 3)%nat
    /\ (length (List.filter is_mutation (requests st')) <= 1)%nat
    /\ (default_device op (audio w) = None ->
        List.filter is_mutation (requests st') = [] /\ audio (env st') = audio w)
    /\ files (env st') = files w /\ written (env st') = written w).
  { intros (st' & R & H1 & H2 & H3 & H4 & H5). exists st'.
    repeat (split; [assumption|]). intros Hup.
    now rewrite (pulse_session_ready op arg w Hup), R. }
  unfold default_device.
  destruct (is_audio_op_cases op Hop) as [-> | [-> | ->]]; cbn [Ascii.eqb Bool.eqb].
  - destruct (find_device _ (sinks (audio w))) as [d|] eqn:Hd.
    + destruct (Z.lt_ge_cases (channels (dev_volume d)) 1) as [Hc|Hc].
      * rewrite (session_volume_no_channel w arg d Hd Hc).
        eexists. split; [reflexivity|]. cbn. repeat split; try lia; discriminate.
      * rewrite (session_volume_set w arg d Hd Hc).
        eexists. split; [reflexivity|]. cbn. repeat split; try lia; discriminate.
    + rewrite (session_sink_missing w "v" arg (or_introl eq_refl) Hd).
      eexists. split; [reflexivity|]. cbn. repeat split; lia.
  - destruct (find_device _ (sinks (audio w))) as [d|] eqn:Hd.
    + rewrite (session_sink_toggle w arg d Hd).
      eexists. split; [reflexivity|]. cbn. repeat split; try lia; discriminate.
    + rewrite (session_sink_missing w "s" arg (or_intror eq_refl) Hd).
      eexists. split; [reflexivity|]. cbn. repeat split; lia.
  - destruct (find_device _ (sources (audio w))) as [d|] eqn:Hd.
    + rewrite (session_source_toggle w arg d Hd).
      eexists. split; [reflexivity|]. cbn. repeat split; try lia; discriminate.
    + rewrite (session_source_missing w arg Hd).
      eexists. split; [reflexivity|]. cbn. repeat split; lia.
Qed.

Lemma audio_session_outcome_witness :
  exists st',
    pa_mainloop_run 8 0 (session_start "m" (-1) (laptop "255" "200")) = Ok (0, st')
    /\ (length (requests st') <= 3)%nat.
Proof.
  destruct (audio_session_outcome (laptop "255" "200") "m" (-1)) as (st' & R & L & _);
    [reflexivity|].
  exists st'. split; [exact R | exact L].
Defined.

Lemma find_device_set_volume (name : string) (l : list pa_device) (d : pa_device)
      (v : pa_cvolume) :
  find_device name l = Some d ->
  find_device name (set_volume (dev_index d) v l) = Some (with_volume d v).
Proof.
  unfold find_device, set_volume. induction l as [|x l IH]; cbn; [discriminate|].
  destruct (String.eqb (dev_name x) name) eqn:Hx.
  - intros [= ->]. rewrite Z.eqb_refl. cbn. now rewrite Hx.
  - intros H. destruct (dev_index x =? dev_index d); cbn; rewrite Hx; now apply IH.
Qed.

Lemma set_volume_keeps (idx : Z) (v : pa_cvolume) (l : list pa_device) :
  map dev_name (set_volume idx v l) = map dev_name l
  /\ map dev_index (set_volume idx v l) = map dev_index l
  /\ map dev_muted (set_volume idx v l) = map dev_muted l
  /\ forall i x, l !! i = Some x -> dev_index x <> idx -> set_volume idx v l !! i = Some x.
Proof.
  unfold set_volume. repeat split.
  - induction l as [|x l IH]; cbn; [reflexivity|].
    rewrite IH. destruct (dev_index x =? idx); reflexivity.
  - induction l as [|x l IH]; cbn; [reflexivity|].
    rewrite IH. destruct (dev_index x =? idx); reflexivity.
  - induction l as [|x l IH]; cbn; [reflexivity|].
    rewrite IH. destruct (dev_index x =? idx); reflexivity.
  - intros i x Hx Hne. rewrite list_lookup_fmap, Hx. cbn.
    destruct (Z.eqb_spec (dev_index x) idx); [contradiction | reflexivity].
Qed.

Lemma set_mute_keeps (idx m : Z) (l : list pa_device) :
  map dev_name (set_mute idx m l) = map dev_name l
  /\ map dev_index (set_mute idx m l) = map dev_index l
  /\ map dev_volume (set_mute idx m l) = map dev_volume l
  /\ forall i x, l !! i = Some x -> dev_index x <> idx -> set_mute idx m l !! i = Some x.
Proof.
  unfold set_mute. repeat split.
  - induction l as [|x l IH]; cbn; [reflexivity|].
    rewrite IH. destruct (dev_index x =? idx); reflexivity.
  - induction l as [|x l IH]; cbn; [reflexivity|].
    rewrite IH. destruct (dev_index x =? idx); reflexivity.
  - induction l as [|x l IH]; cbn; [reflexivity|].
    rewrite IH. destruct (dev_index x =? idx); reflexivity.
  - intros i x Hx Hne. rewrite list_lookup_fmap, Hx. cbn.
    destruct (Z.eqb_spec (dev_index x) idx); [contradiction | reflexivity].
Qed.

(** X11: a volume invocation on a ready session whose default sink has at
    least one channel exits 0, prints "Speakers " and the new level, and
    leaves the default sink with its channels scaled to the target computed
    from its loudest channel and the delta.  Names, indices and mute flags
    of all sinks, every sink with another index, the sources and the
    brightness files are as before. *)
Theorem volume_invocation (w : world) (arg : Z) (d : pa_device) :
  session_up (audio w) = true ->
  default_device "v" (audio w) = Some d ->
  1 <= channels (dev_volume d) ->
  let t := new_volume (pa_cvolume_max (dev_volume d)) arg in
  let v := pa_cvolume_scale (dev_volume d) t in
  exists w',
    pulse_session "v" arg w = Ok (0, w')
    /\ default_device "v" (audio w') = Some (with_volume d v)
    /\ stdout w' = (stdout w +:+ "Speakers " +:+ pa_volume_snprint t)%string
    /\ map dev_name (sinks (audio w')) = map dev_name (sinks (audio w))
    /\ map dev_index (sinks (audio w')) = map dev_index (sinks (audio w))
    /\ map dev_muted (sinks (audio w')) = map dev_muted (sinks (audio w))
    /\ (forall i x, sinks (audio w) !! i = Some x -> dev_index x <> dev_index d ->
                    sinks (audio w') !! i = Some x)
    /\ sources (audio w') = sources (audio w)
    /\ files w' = files w /\ written w' = written w /\ stderr w' = stderr w.
Proof.
  intros Hup Hd Hch t v. unfold default_device in Hd. cbn in Hd.
  rewrite (pulse_session_ready "v" arg w Hup), (session_volume_set w arg d Hd Hch).
  assert (Ht : to_uint32 t = t).
  { unfold to_uint32. apply Z.mod_small.
    pose proof (new_volume_range (pa_cvolume_max (dev_volume d)) arg).
    unfold PA_VOLUME_NORM in *. fold t in H. lia. }
  fold t. rewrite Ht. fold v.
  destruct (set_volume_keeps (dev_index d) v (sinks (audio w))) as (K1 & K2 & K3 & K4).
  eexists. split; [reflexivity|]. cbn.
  split; [unfold default_device; cbn; apply find_device_set_volume, Hd|].
  repeat split; auto.
Qed.

Lemma volume_invocation_witness :
  exists w',
    pulse_session "v" 5000 (laptop "255" "200") = Ok (0, w')
    /\ default_device "v" (audio w')
       = Some (with_volume (speakers false (stereo 30000 60000)) (stereo 32768 65536)).
Proof.
  destruct (volume_invocation (laptop "255" "200") 5000 (speakers false (stereo 30000 60000)))
    as (w' & R & D & _); [reflexivity | reflexivity | cbn; lia |].
  exists w'. split; [exact R | exact D].
Defined.

(** X12: a mute toggle on a ready session exits 0 and prints the message of
    the state it requested: "muted" exactly when the device was not muted
    before.  Only mute flags change: names, indices and volumes of all
    devices, every device with another index, the device list of the other
    kind, the brightness files and stderr are as before. *)
Theorem toggle_invocation (w : world) (op : ascii) (arg : Z) (d : pa_device) :
  op = "s"%char \/ op = "m"%char ->
  session_up (audio w) = true ->
  default_device op (audio w) = Some d ->
  exists w',
    pulse_session op arg w = Ok (0, w')
    /\ default_device op (audio w') = Some (with_muted d (negb (dev_muted d)))
    /\ stdout w'
       = (stdout w +:+ (if Ascii.eqb op "m"
                        then (if dev_muted d then "Mic on" else "Mic muted")
                        else (if dev_muted d then "Speakers on" else "Speakers muted")))%string
    /\ map dev_name (sinks (audio w')) = map dev_name (sinks (audio w))
    /\ map dev_index (sinks (audio w')) = map dev_index (sinks (audio w))
    /\ map dev_volume (sinks (audio w')) = map dev_volume (sinks (audio w))
    /\ map dev_name (sources (audio w')) = map dev_name (sources (audio w))
    /\ map dev_index (sources (audio w')) = map dev_index (sources (audio w))
    /\ map dev_volume (sources (audio w')) = map dev_volume (sources (audio w))
    /\ (forall i x, sinks (audio w) !! i = Some x -> dev_index x <> dev_index d ->
                    sinks (audio w') !! i = Some x)
    /\ (forall i x, sources (audio w) !! i = Some x -> dev_index x <> dev_index d ->
                    sources (audio w') !! i = Some x)
    /\ (if Ascii.eqb op "m" then sinks (audio w') = sinks (audio w)
        else sources (audio w') = sources (audio w))
    /\ files w' = files w /\ written w' = written w /\ stderr w' = stderr w.
Proof.
  intros [-> | ->] Hup Hd; unfold default_device in Hd; cbn in Hd.
  - rewrite (pulse_session_ready "s" arg w Hup), (session_sink_toggle w arg d Hd).
    destruct (set_mute_keeps (dev_index d) (if dev_muted d then 0 else 1) (sinks (audio w)))
      as (K1 & K2 & K3 & K4).
    assert (D : default_device "s"
                  (set_sinks (audio w)
                     (set_mute (dev_index d) (if dev_muted d then 0 else 1) (sinks (audio w))))
                = Some (with_muted d (negb (dev_muted d)))).
    { unfold default_device, set_sinks. cbn [Ascii.eqb Bool.eqb server_info sinks sources].
      rewrite (find_device_set_mute _ _ _ _ Hd). destruct (dev_muted d); reflexivity. }
    eexists. split; [reflexivity|]. split; [exact D|]. cbn.
    repeat split; auto.
  - rewrite (pulse_session_ready "m" arg w Hup), (session_source_toggle w arg d Hd).
    destruct (set_mute_keeps (dev_index d) (if dev_muted d then 0 else 1) (sources (audio w)))
      as (K1 & K2 & K3 & K4).
    assert (D : default_device "m"
                  (set_sources (audio w)
                     (set_mute (dev_index d) (if dev_muted d then 0 else 1) (sources (audio w))))
                = Some (with_muted d (negb (dev_muted d)))).
    { unfold default_device, set_sources. cbn [Ascii.eqb Bool.eqb server_info sinks sources].
      rewrite (find_device_set_mute _ _ _ _ Hd). destruct (dev_muted d); reflexivity. }
    eexists. split; [reflexivity|]. split; [exact D|]. cbn.
    repeat split; auto.
Qed.

Lemma toggle_invocation_witness :
  exists w',
    pulse_session "m" (-1) (laptop "255" "200") = Ok (0, w')
    /\ default_device "m" (audio w') = Some (with_muted (mic false) true)
    /\ stdout w' = "Mic muted"%string.
Proof.
  destruct (toggle_invocation (laptop "255" "200") "m" (-1) (mic false))
    as (w' & R & D & O & _); [right; reflexivity | reflexivity | reflexivity |].
  exists w'. split; [exact R|]. split; [exact D | exact O].
Defined.

(** X13: when the session cannot be set up or the context fails instead of
    becoming ready, the audio branch ends with status 1 without a single
    request reaching the server: the devices, stdout and the brightness
    files are as before.  The failed set-up steps print one diagnostic; a
    context that fails after a successful connect prints none. *)
Theorem session_setup_failure (w : world) (op : ascii) (arg : Z) :
  session_up (audio w) = false ->
  exists w',
    pulse_session op arg w = Ok (1, w')
    /\ audio w' = audio w /\ stdout w' = stdout w
    /\ files w' = files w /\ written w' = written w
    /\ (if mainloop_new_ok (audio w) && signal_init_ok (audio w)
           && context_new_ok (audio w) && connect_ok (audio w)
        then stderr w' = stderr w
        else exists msg, stderr w' = stderr w ++ [msg]).
Proof.
  unfold session_up, pulse_session. intros Hup.
  destruct (mainloop_new_ok (audio w)); cbn [negb andb];
    [|eexists; split; [reflexivity|]; cbn; repeat split; eauto].
  destruct (signal_init_ok (audio w)); cbn [negb andb];
    [|eexists; split; [reflexivity|]; cbn; repeat split; eauto].
  destruct (context_new_ok (audio w)); cbn [negb andb];
    [|eexists; split; [reflexivity|]; cbn; repeat split; eauto].
  destruct (connect_ok (audio w)); cbn [negb andb];
    [|eexists; split; [reflexivity|]; cbn; repeat split; eauto].
  destruct (becomes_ready (audio w)); [discriminate|].
  eexists; split; [reflexivity|]; cbn; repeat split; eauto.
Qed.

Lemma session_setup_failure_witness :
  let a := {| mainloop_new_ok := true; signal_init_ok := true; context_new_ok := true;
              connect_ok := true; becomes_ready := false;
              server_info := {| default_sink_name := "alsa_output";
                                default_source_name := "alsa_input" |};
              sinks := [speakers false (stereo 30000 60000)]; sources := [] |} in
  exists w',
    pulse_session "s" (-1) (machine None None a) = Ok (1, w') /\ audio w' = a.
Proof.
  intros a.
  destruct (session_setup_failure (machine None None a) "s" (-1)) as (w' & R & A & _);
    [reflexivity|].
  exists w'. split; [exact R | exact A].
Defined.

Lemma pulse_session_ignores_arg (w : world) (op : ascii) (arg arg' : Z) :
  op = "s"%char \/ op = "m"%char ->
  pulse_session op arg w = pulse_session op arg' w.
Proof.
  intros Hop. destruct (session_up (audio w)) eqn:Hup.
  - rewrite !pulse_session_ready by exact Hup.
    destruct Hop as [-> | ->].
    + destruct (find_device (default_sink_name (server_info (audio w))) (sinks (audio w)))
        as [d|] eqn:Hd.
      * now rewrite !(session_sink_toggle w _ d Hd).
      * now rewrite !(session_sink_missing w "s" _ (or_intror eq_refl) Hd).
    + destruct (find_device (default_source_name (server_info (audio w)))
                  (sources (audio w))) as [d|] eqn:Hd.
      * now rewrite !(session_source_toggle w _ d Hd).
      * now rewrite !(session_source_missing w _ Hd).
  - unfold session_up in Hup. unfold pulse_session.
    destruct (mainloop_new_ok (audio w)); cbn [negb andb] in *; [|reflexivity].
    destruct (signal_init_ok (audio w)); cbn [negb andb] in *; [|reflexivity].
    destruct (context_new_ok (audio w)); cbn [negb andb] in *; [|reflexivity].
    destruct (connect_ok (audio w)); cbn [negb andb] in *; [|reflexivity].
    destruct (becomes_ready (audio w)); [discriminate|]. reflexivity.
Qed.

(** X14: the toggles take an optional number that must parse and is then
    ignored: with it or without it the invocation does the same. *)
Theorem toggle_ignores_argument (prog action darg : string) (arg : Z) (w : world) :
  first_char action = "s"%char \/ first_char action = "m"%char ->
  sscanf_d darg = Some arg ->
  main [prog; action; darg] w = main [prog; action] w.
Proof.
  intros Hop Hd. unfold main. cbn [length Z.of_nat Pos.of_succ_nat Pos.succ].
  cbn [Z.ltb Z.geb Z.compare Pos.compare Pos.compare_cont lookup list_lookup default
       from_option id].
  rewrite Hd.
  destruct Hop as [-> | ->]; cbn [Ascii.eqb Bool.eqb andb orb];
    apply pulse_session_ignores_arg; auto.
Qed.

Lemma toggle_ignores_argument_witness :
  main ["sltpwmt"; "speaker"; "12"] (laptop "255" "200")
  = main ["sltpwmt"; "speaker"] (laptop "255" "200").
Proof.
  apply (toggle_ignores_argument "sltpwmt" "speaker" "12" 12 (laptop "255" "200")).
  - left. reflexivity.
  - reflexivity.
Defined.

(** X15: the usage errors.  With fewer than two arguments, with a third
    argument that is not a number (whatever the action), with 'b' or 'v'
    and no number, or with an action whose first character is none of b, v,
    s, m, [main] returns 1 after exactly one line on stderr; no file is
    touched, nothing is printed and no audio session is started. *)
Theorem usage_errors (argv : list string) (w : world) :
  let op := first_char (default "" (argv !! 1%nat)) in
  (length argv < 2)%nat
  \/ (exists a, argv !! 2%nat = Some a /\ sscanf_d a = None)
  \/ (length argv = 2%nat /\ (op = "b"%char \/ op = "v"%char))
  \/ (Ascii.eqb op "b" || is_audio_op op) = false ->
  exists msg, main argv w = Ok (1, set_stderr w (stderr w ++ [msg])).
Proof.
  intros op H. unfold main.
  destruct argv as [|a0 [|a1 [|a2 rest]]].
  - eexists. reflexivity.
  - eexists. reflexivity.
  - cbn [length Z.of_nat Pos.of_succ_nat Pos.succ Z.ltb Z.geb Z.compare Pos.compare
         Pos.compare_cont lookup list_lookup default from_option id].
    cbn [lookup list_lookup default from_option id] in op. fold op.
    destruct H as [H | [(a & Ha & _) | [(_ & [-> | ->]) | H]]];
      [cbn in H; lia | discriminate Ha | eexists; reflexivity | eexists; reflexivity |].
    unfold is_audio_op in H.
    destruct (Ascii.eqb op "b"); [discriminate|].
    destruct (Ascii.eqb op "v"); [discriminate|].
    destruct (Ascii.eqb op "s"); [discriminate|].
    destruct (Ascii.eqb op "m"); [discriminate|].
    eexists. reflexivity.
  - replace (Z.of_nat (length (a0 :: a1 :: a2 :: rest)) <? 2) with false
      by (symmetry; apply Z.ltb_ge; cbn [length]; lia).
    replace (Z.of_nat (length (a0 :: a1 :: a2 :: rest)) >=? 3) with true
      by (symmetry; apply Z.geb_le; cbn [length]; lia).
    replace (Z.of_nat (length (a0 :: a1 :: a2 :: rest)) <? 3) with false
      by (symmetry; apply Z.ltb_ge; cbn [length]; lia).
    cbn [lookup list_lookup default from_option id].
    cbn [lookup list_lookup default from_option id] in op. fold op.
    destruct (sscanf_d a2) as [arg|] eqn:Ha; [|eexists; reflexivity].
    destruct H as [H | [(a & Ha' & Hn) | [(Hl & _) | H]]];
      [cbn in H; lia | cbn in Ha'; congruence | cbn in Hl; lia |].
    unfold is_audio_op in H.
    destruct (Ascii.eqb op "b"); [discriminate|].
    destruct (Ascii.eqb op "v"); [discriminate|].
    destruct (Ascii.eqb op "s"); [discriminate|].
    destruct (Ascii.eqb op "m"); [discriminate|].
    eexists. reflexivity.
Qed.

Lemma usage_errors_witness :
  exists msg,
    main ["sltpwmt"; "s"; "loud"] (laptop "255" "200")
    = Ok (1, set_stderr (laptop "255" "200") (stderr (laptop "255" "200") ++ [msg])).
Proof.
  apply (usage_errors ["sltpwmt"; "s"; "loud"] (laptop "255" "200")).
  right. left. exists "loud"%string. split; reflexivity.
Defined.

(** ** Faults *)

Lemma do_brightness_max_read_fails (w : world) (delta : Z) :
  read_fails w MAX_BRIGHTNESS_PATH = true ->
  do_brightness delta w = Fault (OutOfBounds (-1) 512).
Proof.
  unfold read_fails. intros H.
  destruct (files w !! MAX_BRIGHTNESS_PATH) as [f|] eqn:Hf; [|discriminate].
  apply andb_prop in H. destruct H as [Ho Hr].
  destruct (on_read f) eqn:Hn; [discriminate|].
  unfold do_brightness.
  apply bind_fault.
  apply (read_sysfs_failed_read w _ f (replicate 512 NUL) 512 Hf Ho Hn).
Qed.

Lemma do_brightness_br_read_fails (w : world) (delta : Z) (sm : string) :
  sysfs_text w MAX_BRIGHTNESS_PATH = Some sm ->
  read_fails w BRIGHTNESS_PATH = true ->
  do_brightness delta w = Fault (OutOfBounds (-1) 512).
Proof.
  unfold read_fails. intros Hm H.
  destruct (files w !! BRIGHTNESS_PATH) as [f|] eqn:Hf; [|discriminate].
  apply andb_prop in H. destruct H as [Ho Hr].
  destruct (on_read f) eqn:Hn; [discriminate|].
  unfold do_brightness.
  destruct (sysfs_text_read w _ sm (replicate 512 NUL) Hm) as (n1 & buf1 & R1 & Hn1 & L1 & T1).
  { apply length_replicate. }
  erewrite bind_ok by exact R1. cbv beta iota.
  replace (n1 =? -1) with false by (symmetry; apply Z.eqb_neq; lia).
  apply bind_fault.
  rewrite (read_sysfs_failed_read w _ f buf1 512 Hf Ho Hn), L1. reflexivity.
Qed.

(** X16: the store behind a failed read(2) is the only fault of the whole
    program model.  If [main] does not return, the action was 'b' with a
    number, one of the two files opened and its read(2) failed; the audio
    path never aborts on its assertion and, with a server that answers, is
    never left waiting. *)
Theorem main_faults_only_on_failed_read (argv : list string) (w : world) (f : fault) :
  main argv w = Fault f ->
  f = OutOfBounds (-1) 512
  /\ first_char (default "" (argv !! 1%nat)) = "b"%char
  /\ (read_fails w MAX_BRIGHTNESS_PATH = true \/ read_fails w BRIGHTNESS_PATH = true).
Proof.
  unfold main. intros H.
  destruct (_ <? 2); [discriminate|].
  destruct (if _ >=? 3 then _ else _) as [arg|]; [|discriminate].
  destruct (Ascii.eqb_spec (first_char (default "" (argv !! 1%nat))) "b") as [Hb|Hb].
  - destruct (_ <? 3); [discriminate|].
    destruct (read_fails w MAX_BRIGHTNESS_PATH) eqn:R1.
    + rewrite (do_brightness_max_read_fails w arg R1) in H. injection H as <-. auto.
    + destruct (read_fails w BRIGHTNESS_PATH) eqn:R2.
      * destruct (sysfs_text_cases w _ R1) as [[sm Hm]|Hc].
        -- rewrite (do_brightness_br_read_fails w arg sm Hm R2) in H.
           injection H as <-. auto.
        -- rewrite (do_brightness_max_closed w arg Hc) in H. discriminate.
      * destruct (do_brightness_outcome w arg R1 R2) as (r & w' & E & _).
        rewrite E in H. discriminate.
  - destruct (_ && _); [discriminate|].
    destruct (_ || _) eqn:Hop; [|discriminate].
    exfalso.
    destruct (session_up (audio w)) eqn:Hup.
    + rewrite (pulse_session_ready _ arg w Hup) in H.
      destruct (audio_session_outcome w (first_char (default "" (argv !! 1%nat))) arg Hop)
        as (st' & E & _).
      rewrite E in H. discriminate.
    + destruct (session_setup_failure w (first_char (default "" (argv !! 1%nat))) arg Hup)
        as (w' & E & _).
      rewrite E in H. discriminate.
Qed.

Lemma main_faults_only_on_failed_read_witness :
  let f := {| can_open_rd := true; on_read := None;
              can_open_wr := true; on_write := Some 4096 |} in
  let w := machine (Some (plain_file "255")) (Some f) (desktop_audio [] []) in
  OutOfBounds (-1) 512 = OutOfBounds (-1) 512
  /\ first_char (default "" (["sltpwmt"; "b"; "1"] !! 1%nat)) = "b"%char
  /\ (read_fails w MAX_BRIGHTNESS_PATH = true \/ read_fails w BRIGHTNESS_PATH = true).
Proof.
  intros f w.
  apply (main_faults_only_on_failed_read ["sltpwmt"; "b"; "1"] w (OutOfBounds (-1) 512)).
  vm_compute. reflexivity.
Defined.

(** ** Requests of the device callbacks *)

(** X17: one call of a device-info callback sends at most one request; it
    does so only for a record ([eol = 0]), the request is a mute-set or
    volume-set, never a query, and it names [do_pulse_success] as its
    completion callback. *)
Theorem device_callbacks_send_one_mutation (st st' : pulse)
        (i : option pa_sink_info) (j : option pa_source_info) (eol : Z) :
  do_pulse_vs i eol st = Ok (tt, st') \/ do_pulse_m j eol st = Ok (tt, st') ->
  requests st' = requests st
  \/ exists r, requests st' = requests st ++ [r] /\ eol = 0
               /\ is_mutation r = true /\ request_cb r = cb_do_pulse_success.
Proof.
  unfold do_pulse_vs, do_pulse_m.
  destruct (eol <? 0).
  { unfold bind, in_env, eprint, pulse_quit. cbn.
    destruct (pulse_mapi st); intros [H|H]; injection H as <-; now left. }
  destruct (Z.eqb_spec eol 0) as [->|Hne]; cbn [negb];
    [|intros [H|H]; injection H as <-; now left].
  intros [H|H].
  - destruct i as [i|]; [|discriminate].
    destruct (Ascii.eqb (pulse_op st) "s").
    { injection H as <-. right. eexists. cbn. repeat split. }
    destruct (Ascii.eqb (pulse_op st) "v").
    + destruct (channels (si_volume i) <? 1).
      * unfold pulse_quit in H. destruct (pulse_mapi st); injection H as <-; now left.
      * injection H as <-. right. eexists. cbn. repeat split.
    + unfold bind, in_env, eprint, pulse_quit in H. cbn in H.
      destruct (pulse_mapi st); injection H as <-; now left.
  - destruct j as [j|]; [|discriminate].
    injection H as <-. right. eexists. cbn. repeat split.
Qed.

Lemma device_callbacks_send_one_mutation_witness :
  let st := awaiting_device "m" (-1) (laptop "255" "200") in
  let st' := set_env (set_requests st (requests st
                        ++ [set_source_mute_by_index 1 1 cb_do_pulse_success]))
                     (set_stdout (env st) "Mic muted") in
  requests st' = requests st
  \/ exists r, requests st' = requests st ++ [r] /\ 0 = 0
               /\ is_mutation r = true /\ request_cb r = cb_do_pulse_success.
Proof.
  intros st st'.
  apply (device_callbacks_send_one_mutation st st' None (Some (source_info_of (mic false))) 0).
  right. vm_compute. reflexivity.
Defined.
